(** * deeplab/datasets/regression_dataset_mP.py

    A shallow embedding of the dataset registry of the regression data
    provider and of its resolver [get_dataset], followed by the properties
    of the resolver.

    Python dictionaries keyed by strings are finite maps ([gmap string]),
    Python integers are [Z], Python float literals are IEEE 754 binary64
    values ([spec_float]), lists are lists.  Module-level names are kept in
    a record of globals that the resolver reads through a small state and
    exception monad, so that what the resolver does to the module state is
    part of its result. *)

From Stdlib Require Import Ascii Floats.SpecFloat.
From stdpp Require Import gmap strings list fin_maps pretty.

Open Scope string_scope.
Open Scope Z_scope.

(** ** Python values and exceptions *)

Inductive exn : Type :=
  | ValueError (msg : string)
  | TypeError (msg : string)
  | KeyError (key : string).

Inductive Outcome (A : Type) : Type :=
  | Returned (a : A)
  | Raised (e : exn).
Arguments Returned {A} a.
Arguments Raised {A} e.

#[global] Instance Outcome_ret : MRet Outcome := λ A a, Returned a.
#[global] Instance Outcome_fmap : FMap Outcome := λ A B f m,
  match m with
  | Returned a => Returned (f a)
  | Raised e => Raised e
  end.
#[global] Instance Outcome_bind : MBind Outcome := λ A B f m,
  match m with
  | Returned a => f a
  | Raised e => Raised e
  end.

(** The value of a computation that the type checker sees return. *)
Definition returned {A : Type} (r : Outcome A)
  : match r with Returned _ => A | Raised _ => unit end :=
  match r with
  | Returned a => a
  | Raised _ => tt
  end.

Inductive PyVal : Type :=
  | PyStr (s : string)
  | PyInt (z : Z).

(** [str(v)] *)
Definition py_str (v : PyVal) : string :=
  match v with
  | PyStr s => s
  | PyInt z => pretty z
  end.

(** The [%] operator on a format string, for the conversions this module
    writes: [%s], [%d] and the escape [%%].  [args] is the argument tuple (a
    single non-tuple argument is a tuple of one). *)
Fixpoint percent_format (fmt : string) (args : list PyVal) : Outcome string :=
  match fmt with
  | EmptyString =>
      match args with
      | [] => Returned ""
      | _ :: _ =>
          Raised (TypeError "not all arguments converted during string formatting")
      end
  | String c fmt' =>
      if Ascii.eqb c "%"%char then
        match fmt' with
        | EmptyString => Raised (ValueError "incomplete format")
        | String k rest =>
            if Ascii.eqb k "%"%char then
              String "%"%char <$> percent_format rest args
            else
              match args with
              | [] => Raised (TypeError "not enough arguments for format string")
              | v :: args' =>
                  if Ascii.eqb k "s"%char then
                    String.append (py_str v) <$> percent_format rest args'
                  else if Ascii.eqb k "d"%char then
                    match v with
                    | PyInt z => String.append (pretty z) <$> percent_format rest args'
                    | PyStr _ =>
                        Raised (TypeError "%d format: a number is required, not str")
                    end
                  else Raised (ValueError "unsupported format character")
              end
        end
      else String c <$> percent_format fmt' args
  end.

(** [l * n] on a list *)
Definition list_mul {A : Type} (l : list A) (n : Z) : list A :=
  mjoin (replicate (Z.to_nat n) l).

(** [range(n)] *)
Definition range (n : Z) : list Z := seqZ 0 n.

(** A dictionary display: later items replace earlier ones with the same key. *)
Definition py_dict {V : Type} (items : list (string * V)) : gmap string V :=
  foldl (λ m kv, <[kv.1 := kv.2]> m) ∅ items.

(** [k in d] *)
Definition dict_contains {V : Type} (k : string) (d : gmap string V) : bool :=
  match d !! k with
  | Some _ => true
  | None => false
  end.

(** [d[k]] *)
Definition dict_getitem {V : Type} (d : gmap string V) (k : string) : Outcome V :=
  match d !! k with
  | Some v => Returned v
  | None => Raised (KeyError k)
  end.

(** ** [os.path.join] (posixpath) on two components *)

Fixpoint endswith_sep (s : string) : bool :=
  match s with
  | EmptyString => false
  | String c EmptyString => Ascii.eqb c "/"%char
  | String _ s' => endswith_sep s'
  end.

Definition startswith_sep (s : string) : bool :=
  match s with
  | String c _ => Ascii.eqb c "/"%char
  | EmptyString => false
  end.

Definition is_empty (s : string) : bool :=
  match s with
  | EmptyString => true
  | String _ _ => false
  end.

Definition os_path_join (a b : string) : string :=
  if startswith_sep b then b
  else if is_empty a || endswith_sep a then a +:+ b
  else a +:+ "/" +:+ b.

(** ** The TensorFlow values the resolver builds

    Constructors of [tf] and of [slim.tfexample_decoder]; building them
    stores their arguments and does nothing else. *)

Module tf.
Inductive DType : Type := string | int64 | float32 | uint8 | uint16.

Inductive Feature : Type :=
  | FixedLenFeature (shape : list Z) (dtype : DType) (default_value : PyVal)
  | VarLenFeature (dtype : DType).

Inductive Reader : Type := TFRecordReader.
End tf.

Module tfexample_decoder.
Inductive ItemHandler : Type :=
  | Image (image_key format_key : string) (channels : Z) (dtype : tf.DType)
  | Tensor (tensor_key : string).

Record TFExampleDecoder : Type := {
  keys_to_features : gmap string tf.Feature;
  items_to_handlers : gmap string ItemHandler;
}.
End tfexample_decoder.

(** ** Data model *)

Module DatasetDescriptor.
Record t : Type := {
  splits_to_sizes : gmap string Z;
  num_classes : Z;
  shape_dims : Z;
  shape_bins : Z;
  height_ori : Z;
  width_ori : Z;
  pose_range : list (list spec_float);
  bin_nums : list Z;
  output_names : list string;
  output_names_summary : list string;
}.
End DatasetDescriptor.

(** [slim.dataset.Dataset]: the five positional attributes and the keyword
    attributes the resolver passes. *)
Module Dataset.
Record t : Type := {
  data_sources : string;
  reader : tf.Reader;
  decoder : tfexample_decoder.TFExampleDecoder;
  num_samples : Z;
  items_to_descriptions : gmap string string;
  pose_range : list (list spec_float);
  bin_nums : list Z;
  SHAPE_DIMS : Z;
  output_names : list string;
  output_names_summary : list string;
  num_classes : Z;
  SHAPE_BINS : Z;
  POSE_BINS : Z;
  name : string;
  height_ori : Z;
  width_ori : Z;
  multi_label : bool;
  if_depth : bool;
}.
End Dataset.

(** The caller configuration; the resolver reads [FLAGS.if_depth]. *)
Module Flags.
Record t : Type := { if_depth : bool }.
End Flags.

(** The module-level names bound when the module has been imported. *)
Module Globals.
Record t : Type := {
  _ITEMS_TO_DESCRIPTIONS : gmap string string;
  SHAPE_DIMS : Z;
  SHAPE_BINS : Z;
  POSE_BINS : Z;
  _APOLLOSCAPE_INFORMATION : DatasetDescriptor.t;
  _DATASETS_INFORMATION : gmap string DatasetDescriptor.t;
  _FILE_PATTERN : string;
}.
End Globals.

(** ** Module-level constants, in the order the module binds them *)

Definition _ITEMS_TO_DESCRIPTIONS : gmap string string :=
  py_dict [
    ("image", "A color image of varying height and width.");
    ("labels_class",
     "A semantic regression label whose size matches image.Its values range from 0 (background) to real values (pose and shape representations).")
  ].

Definition SHAPE_DIMS : Z := 10.
Definition SHAPE_BINS : Z := 32.
Definition POSE_BINS : Z := 128.

(** The float literals of [pose_range], as binary64 values
    (mantissa times two to the exponent). *)
Definition float_1 : spec_float := S754_finite false 4503599627370496 (-52).
Definition float_neg_1 : spec_float := S754_finite true 4503599627370496 (-52).
Definition float_0 : spec_float := S754_zero false.
Definition float_neg_0 : spec_float := S754_zero true.
Definition float_1_1 : spec_float := S754_finite false 4953959590107546 (-52).
Definition float_350 : spec_float := S754_finite false 6157265115545600 (-44).

(** [['shape_%d' % dim for dim in range(dims)]] *)
Definition shape_names (dims : Z) : Outcome (list string) :=
  mapM (λ dim, percent_format "shape_%d" [PyInt dim]) (range dims).

Definition _APOLLOSCAPE_INFORMATION : DatasetDescriptor.t := {|
  DatasetDescriptor.splits_to_sizes :=
    py_dict [("train", 4611); ("val", 480); ("test", 1041)];
  DatasetDescriptor.num_classes := 7 + 2;
  DatasetDescriptor.shape_dims := SHAPE_DIMS;
  DatasetDescriptor.shape_bins := SHAPE_BINS;
  DatasetDescriptor.height_ori := 678;
  DatasetDescriptor.width_ori := 1692;
  DatasetDescriptor.pose_range :=
    [ [float_neg_1; float_1];
      [float_neg_1; float_1];
      [float_neg_1; float_1];
      [float_neg_1; float_1];
      [float_neg_0; float_0];
      [float_neg_0; float_0];
      [float_1_1; float_350];
      [float_0; float_0] ];
  DatasetDescriptor.bin_nums :=
    list_mul [POSE_BINS] 4 ++ [1; 1; POSE_BINS; 1] ++ list_mul [SHAPE_BINS] SHAPE_DIMS;
  DatasetDescriptor.output_names :=
    ["q1"; "q2"; "q3"; "q4"; "x"; "y"; "z_log_dense"; "z_log_offset"]
      ++ returned (shape_names SHAPE_DIMS);
  DatasetDescriptor.output_names_summary :=
    ["q1"; "q2"; "q3"; "q4"; "x"; "y"; "z_object"]
      ++ returned (shape_names SHAPE_DIMS);
|}.

Definition _DATASETS_INFORMATION : gmap string DatasetDescriptor.t :=
  py_dict [("apolloscape", _APOLLOSCAPE_INFORMATION)].

Definition _FILE_PATTERN : string := "%s-*".

(** The module state once the module body has run. *)
Definition module_globals : Globals.t := {|
  Globals._ITEMS_TO_DESCRIPTIONS := _ITEMS_TO_DESCRIPTIONS;
  Globals.SHAPE_DIMS := SHAPE_DIMS;
  Globals.SHAPE_BINS := SHAPE_BINS;
  Globals.POSE_BINS := POSE_BINS;
  Globals._APOLLOSCAPE_INFORMATION := _APOLLOSCAPE_INFORMATION;
  Globals._DATASETS_INFORMATION := _DATASETS_INFORMATION;
  Globals._FILE_PATTERN := _FILE_PATTERN;
|}.

(** ** The monad of function bodies: module state and exceptions *)

Definition Py (A : Type) : Type := Globals.t → Outcome A * Globals.t.

#[global] Instance Py_ret : MRet Py := λ A a g, (Returned a, g).
#[global] Instance Py_bind : MBind Py := λ A B f m g,
  match m g with
  | (Returned a, g') => f a g'
  | (Raised e, g') => (Raised e, g')
  end.

Definition raise {A : Type} (e : exn) : Py A := λ g, (Raised e, g).

(** Reading a module-level name. *)
Definition global {A : Type} (name : Globals.t → A) : Py A :=
  λ g, (Returned (name g), g).

(** An expression that touches no state and may raise. *)
Definition eval {A : Type} (r : Outcome A) : Py A := λ g, (r, g).

(** [_DATASETS_INFORMATION[dataset_name].field] *)
Definition descriptor_field {A : Type}
    (dataset_name : string) (field : DatasetDescriptor.t → A) : Py A :=
  datasets ← global Globals._DATASETS_INFORMATION;
  d ← eval (dict_getitem datasets dataset_name);
  mret (field d).

(** ** The resolver *)

(** The two decoding schemas. *)
Definition full_keys_to_features : gmap string tf.Feature :=
  py_dict [
    ("image/encoded", tf.FixedLenFeature [] tf.string (PyStr ""));
    ("image/filename", tf.FixedLenFeature [] tf.string (PyStr ""));
    ("image/format", tf.FixedLenFeature [] tf.string (PyStr "png"));
    ("image/height", tf.FixedLenFeature [] tf.int64 (PyInt 0));
    ("image/width", tf.FixedLenFeature [] tf.int64 (PyInt 0));
    ("posedict/encoded", tf.VarLenFeature tf.float32);
    ("rotuvddict/encoded", tf.VarLenFeature tf.float32);
    ("bboxdict/encoded", tf.VarLenFeature tf.float32);
    ("shapeiddict/encoded", tf.VarLenFeature tf.float32);
    ("vis/encoded", tf.FixedLenFeature [] tf.string (PyStr ""));
    ("vis/format", tf.FixedLenFeature [] tf.string (PyStr "png"));
    ("depth/encoded", tf.FixedLenFeature [] tf.string (PyStr ""));
    ("depth/format", tf.FixedLenFeature [] tf.string (PyStr "png"));
    ("seg/encoded", tf.FixedLenFeature [] tf.string (PyStr ""));
    ("seg/format", tf.FixedLenFeature [] tf.string (PyStr "png"));
    ("shape_id_map/encoded", tf.FixedLenFeature [] tf.string (PyStr ""));
    ("shape_id_map/format", tf.FixedLenFeature [] tf.string (PyStr "png"))
  ].

Definition full_items_to_handlers : gmap string tfexample_decoder.ItemHandler :=
  py_dict [
    ("image", tfexample_decoder.Image "image/encoded" "image/format" 3 tf.uint8);
    ("vis", tfexample_decoder.Image "vis/encoded" "vis/format" 3 tf.uint8);
    ("depth", tfexample_decoder.Image "depth/encoded" "depth/format" 1 tf.uint16);
    ("seg", tfexample_decoder.Image "seg/encoded" "seg/format" 1 tf.uint8);
    ("image_name", tfexample_decoder.Tensor "image/filename");
    ("height", tfexample_decoder.Tensor "image/height");
    ("width", tfexample_decoder.Tensor "image/width");
    ("pose_dict", tfexample_decoder.Tensor "posedict/encoded");
    ("rotuvd_dict", tfexample_decoder.Tensor "rotuvddict/encoded");
    ("bbox_dict", tfexample_decoder.Tensor "bboxdict/encoded");
    ("shape_id_dict", tfexample_decoder.Tensor "shapeiddict/encoded");
    ("shape_id_map",
     tfexample_decoder.Image "shape_id_map/encoded" "shape_id_map/format" 1 tf.uint8)
  ].

Definition test_keys_to_features : gmap string tf.Feature :=
  py_dict [
    ("image/encoded", tf.FixedLenFeature [] tf.string (PyStr ""));
    ("image/filename", tf.FixedLenFeature [] tf.string (PyStr ""));
    ("image/format", tf.FixedLenFeature [] tf.string (PyStr "png"));
    ("image/height", tf.FixedLenFeature [] tf.int64 (PyInt 0));
    ("image/width", tf.FixedLenFeature [] tf.int64 (PyInt 0));
    ("seg/encoded", tf.FixedLenFeature [] tf.string (PyStr ""));
    ("seg/format", tf.FixedLenFeature [] tf.string (PyStr "png"))
  ].

Definition test_items_to_handlers : gmap string tfexample_decoder.ItemHandler :=
  py_dict [
    ("image", tfexample_decoder.Image "image/encoded" "image/format" 3 tf.uint8);
    ("seg", tfexample_decoder.Image "seg/encoded" "seg/format" 1 tf.uint8);
    ("image_name", tfexample_decoder.Tensor "image/filename");
    ("height", tfexample_decoder.Tensor "image/height");
    ("width", tfexample_decoder.Tensor "image/width")
  ].

Definition get_dataset
    (FLAGS : Flags.t) (dataset_name split_name dataset_dir : string)
  : Py Dataset.t :=
  datasets ← global Globals._DATASETS_INFORMATION;
  if negb (dict_contains dataset_name datasets) then
    raise (ValueError "The specified dataset is not supported yet.")
  else
  splits_to_sizes ← descriptor_field dataset_name DatasetDescriptor.splits_to_sizes;
  if negb (dict_contains split_name splits_to_sizes) then
    msg ← eval (percent_format "data split name %s not recognized" [PyStr split_name]);
    raise (ValueError msg)
  else
  (* Prepare the variables for different datasets. *)
  num_classes ← descriptor_field dataset_name DatasetDescriptor.num_classes;
  SHAPE_DIMS ← descriptor_field dataset_name DatasetDescriptor.shape_dims;
  SHAPE_BINS ← descriptor_field dataset_name DatasetDescriptor.shape_bins;
  pose_range ← descriptor_field dataset_name DatasetDescriptor.pose_range;
  bin_nums ← descriptor_field dataset_name DatasetDescriptor.bin_nums;
  output_names ← descriptor_field dataset_name DatasetDescriptor.output_names;
  output_names_summary ←
    descriptor_field dataset_name DatasetDescriptor.output_names_summary;
  height_ori ← descriptor_field dataset_name DatasetDescriptor.height_ori;
  width_ori ← descriptor_field dataset_name DatasetDescriptor.width_ori;
  file_pattern ← global Globals._FILE_PATTERN;
  shards ← eval (percent_format file_pattern [PyStr split_name]);
  let file_pattern := os_path_join dataset_dir shards in
  (* Specify how the TF-Examples are decoded. *)
  let '(keys_to_features, items_to_handlers) :=
    if negb (String.eqb split_name "test")
    then (full_keys_to_features, full_items_to_handlers)
    else (test_keys_to_features, test_items_to_handlers) in
  let decoder :=
    {| tfexample_decoder.keys_to_features := keys_to_features;
       tfexample_decoder.items_to_handlers := items_to_handlers |} in
  num_samples ← eval (dict_getitem splits_to_sizes split_name);
  items_to_descriptions ← global Globals._ITEMS_TO_DESCRIPTIONS;
  POSE_BINS ← global Globals.POSE_BINS;
  mret {|
    Dataset.data_sources := file_pattern;
    Dataset.reader := tf.TFRecordReader;
    Dataset.decoder := decoder;
    Dataset.num_samples := num_samples;
    Dataset.items_to_descriptions := items_to_descriptions;
    Dataset.pose_range := pose_range;
    Dataset.bin_nums := bin_nums;
    Dataset.SHAPE_DIMS := SHAPE_DIMS;
    Dataset.output_names := output_names;
    Dataset.output_names_summary := output_names_summary;
    Dataset.num_classes := num_classes;
    Dataset.SHAPE_BINS := SHAPE_BINS;
    Dataset.POSE_BINS := POSE_BINS;
    Dataset.name := dataset_name;
    Dataset.height_ori := height_ori;
    Dataset.width_ori := width_ori;
    Dataset.multi_label := true;
    Dataset.if_depth := Flags.if_depth FLAGS;
  |}.


(** The two exceptions the resolver raises itself. *)
Definition unsupported_dataset_error : exn :=
  ValueError "The specified dataset is not supported yet.".

Definition unrecognized_split_error (split_name : string) : exn :=
  ValueError ("data split name " +:+ split_name +:+ " not recognized").

(** ** Notions used to state the properties *)

(** A computation that leaves the module state as it found it. *)
Definition read_only {A : Type} (m : Py A) : Prop := ∀ g, (m g).2 = g.

(** The decoder selected for a split (source lines 183 to 280). *)
Definition decoder_of (split_name : string) : tfexample_decoder.TFExampleDecoder :=
  if negb (String.eqb split_name "test")
  then {| tfexample_decoder.keys_to_features := full_keys_to_features;
          tfexample_decoder.items_to_handlers := full_items_to_handlers |}
  else {| tfexample_decoder.keys_to_features := test_keys_to_features;
          tfexample_decoder.items_to_handlers := test_items_to_handlers |}.

(** The handle assembled at the end of the resolver (source lines 281 to
    303) from the descriptor [d] found in the registry, the split size [n]
    and the formatted shard pattern [shards]. *)
Definition handle_of (g : Globals.t) (FLAGS : Flags.t) (d : DatasetDescriptor.t)
    (n : Z) (dataset_name split_name dataset_dir shards : string) : Dataset.t := {|
  Dataset.data_sources := os_path_join dataset_dir shards;
  Dataset.reader := tf.TFRecordReader;
  Dataset.decoder := decoder_of split_name;
  Dataset.num_samples := n;
  Dataset.items_to_descriptions := Globals._ITEMS_TO_DESCRIPTIONS g;
  Dataset.pose_range := DatasetDescriptor.pose_range d;
  Dataset.bin_nums := DatasetDescriptor.bin_nums d;
  Dataset.SHAPE_DIMS := DatasetDescriptor.shape_dims d;
  Dataset.output_names := DatasetDescriptor.output_names d;
  Dataset.output_names_summary := DatasetDescriptor.output_names_summary d;
  Dataset.num_classes := DatasetDescriptor.num_classes d;
  Dataset.SHAPE_BINS := DatasetDescriptor.shape_bins d;
  Dataset.POSE_BINS := Globals.POSE_BINS g;
  Dataset.name := dataset_name;
  Dataset.height_ori := DatasetDescriptor.height_ori d;
  Dataset.width_ori := DatasetDescriptor.width_ori d;
  Dataset.multi_label := true;
  Dataset.if_depth := Flags.if_depth FLAGS;
|}.

(** The record keys of the two schemas, by family. *)
Definition image_keys : gset string :=
  {[ "image/encoded"; "image/filename"; "image/format"; "image/height";
     "image/width" ]}.

Definition seg_keys : gset string := {[ "seg/encoded"; "seg/format" ]}.

Definition pose_shape_depth_vis_keys : gset string :=
  {[ "posedict/encoded"; "rotuvddict/encoded"; "bboxdict/encoded";
     "shapeiddict/encoded"; "vis/encoded"; "vis/format"; "depth/encoded";
     "depth/format"; "shape_id_map/encoded"; "shape_id_map/format" ]}.

(** The module state with another registry. *)
Definition with_registry (g : Globals.t)
    (registry : gmap string DatasetDescriptor.t) : Globals.t := {|
  Globals._ITEMS_TO_DESCRIPTIONS := Globals._ITEMS_TO_DESCRIPTIONS g;
  Globals.SHAPE_DIMS := Globals.SHAPE_DIMS g;
  Globals.SHAPE_BINS := Globals.SHAPE_BINS g;
  Globals.POSE_BINS := Globals.POSE_BINS g;
  Globals._APOLLOSCAPE_INFORMATION := Globals._APOLLOSCAPE_INFORMATION g;
  Globals._DATASETS_INFORMATION := registry;
  Globals._FILE_PATTERN := Globals._FILE_PATTERN g;
|}.

(** A descriptor with its own shape geometry, to resolve beside the
    registered one. *)
Definition other_descriptor : DatasetDescriptor.t := {|
  DatasetDescriptor.splits_to_sizes := py_dict [("train", 1)];
  DatasetDescriptor.num_classes := 2;
  DatasetDescriptor.shape_dims := 3;
  DatasetDescriptor.shape_bins := 5;
  DatasetDescriptor.height_ori := 1;
  DatasetDescriptor.width_ori := 1;
  DatasetDescriptor.pose_range := [];
  DatasetDescriptor.bin_nums := [];
  DatasetDescriptor.output_names := [];
  DatasetDescriptor.output_names_summary := [];
|}.

(** A descriptor whose split name is an absolute path. *)
Definition rooted_descriptor : DatasetDescriptor.t := {|
  DatasetDescriptor.splits_to_sizes := py_dict [("/mnt/train", 7)];
  DatasetDescriptor.num_classes := 2;
  DatasetDescriptor.shape_dims := 3;
  DatasetDescriptor.shape_bins := 5;
  DatasetDescriptor.height_ori := 1;
  DatasetDescriptor.width_ori := 1;
  DatasetDescriptor.pose_range := [];
  DatasetDescriptor.bin_nums := [];
  DatasetDescriptor.output_names := [];
  DatasetDescriptor.output_names_summary := [];
|}.

(** The record keys an item handler reads when an example is decoded:
    [ItemHandler.keys] of [slim.tfexample_decoder], [[image_key,
    format_key]] for [Image] and [[tensor_key]] for [Tensor]. *)
Definition handler_keys (handler : tfexample_decoder.ItemHandler) : list string :=
  match handler with
  | tfexample_decoder.Image image_key format_key _ _ => [image_key; format_key]
  | tfexample_decoder.Tensor tensor_key => [tensor_key]
  end.

(** All the record keys the handlers of a decoder read. *)
Definition read_keys (decoder : tfexample_decoder.TFExampleDecoder) : gset string :=
  list_to_set
    (mjoin (handler_keys <$>
              (map_to_list (tfexample_decoder.items_to_handlers decoder)).*2)).

#[global] Instance PyVal_eq_dec : EqDecision PyVal.
Proof. solve_decision. Defined.
#[global] Instance DType_eq_dec : EqDecision tf.DType.
Proof. solve_decision. Defined.
#[global] Instance Feature_eq_dec : EqDecision tf.Feature.
Proof. solve_decision. Defined.
#[global] Instance ItemHandler_eq_dec : EqDecision tfexample_decoder.ItemHandler.
Proof. solve_decision. Defined.

(** ** The resolver with its effects recorded

    The same function body once more, in a monad that also threads what lies
    outside the module: a state [E] of the outside world (file system,
    TensorFlow graph, the configuration object), on which every call into
    [os.path], [tf] and [slim] and every attribute read on [FLAGS] acts
    through an arbitrary [library], and the list of those interactions in the
    order they happen.  Loading a name, reading an attribute of a module or
    of a descriptor, subscripting a dictionary of the module, formatting a
    string and comparing strings act on neither; the values the library
    calls return are the ones of the resolver above. *)

Inductive Effect : Type :=
  | Call (callee : string)
  | GetAttr (object attribute : string).

#[global] Instance Effect_eq_dec : EqDecision Effect.
Proof. solve_decision. Defined.

Record World (E : Type) : Type := {
  w_globals : Globals.t;
  w_external : E;
  w_effects : list Effect;
}.
Arguments w_globals {E} w.
Arguments w_external {E} w.
Arguments w_effects {E} w.

(** One interaction with the outside: the library acts on the outside world
    and the interaction is recorded. *)
Definition perform {E : Type} (library : Effect → E → E) (a : Effect)
    (w : World E) : World E := {|
  w_globals := w_globals w;
  w_external := library a (w_external w);
  w_effects := w_effects w ++ [a];
|}.

Definition performs {E : Type} (library : Effect → E → E) (w : World E)
    (effects : list Effect) : World E :=
  foldl (λ w a, perform library a w) w effects.

Definition PyT (E : Type) : Type → Type :=
  λ A, World E → Outcome A * World E.

#[global] Instance PyT_ret {E : Type} : MRet (PyT E) := λ A a w, (Returned a, w).
#[global] Instance PyT_bind {E : Type} : MBind (PyT E) := λ A B f m w,
  match m w with
  | (Returned a, w') => f a w'
  | (Raised e, w') => (Raised e, w')
  end.

Definition raiseT {E A : Type} (e : exn) : PyT E A := λ w, (Raised e, w).

Definition globalT {E A : Type} (name : Globals.t → A) : PyT E A :=
  λ w, (Returned (name (w_globals w)), w).

Definition evalT {E A : Type} (r : Outcome A) : PyT E A := λ w, (r, w).

(** [callee(...)], for a callable of a library that builds the value [v]. *)
Definition call {E A : Type} (library : Effect → E → E) (callee : string)
    (v : A) : PyT E A :=
  λ w, (Returned v, perform library (Call callee) w).

(** [object.attribute], for an object the caller passed in. *)
Definition getattr {E A : Type} (library : Effect → E → E)
    (object attribute : string) (v : A) : PyT E A :=
  λ w, (Returned v, perform library (GetAttr object attribute) w).

(** A dictionary display whose values are calls of library constructors:
    the calls are made in the order of the items. *)
Definition dict_display {E V : Type} (library : Effect → E → E)
    (callee : V → string) (items : list (string * V)) : PyT E (gmap string V) :=
  λ w, (Returned (py_dict items),
        performs library w ((λ item, Call (callee item.2)) <$> items)).

Definition feature_callee (feature : tf.Feature) : string :=
  match feature with
  | tf.FixedLenFeature _ _ _ => "tf.FixedLenFeature"
  | tf.VarLenFeature _ => "tf.VarLenFeature"
  end.

Definition handler_callee (handler : tfexample_decoder.ItemHandler) : string :=
  match handler with
  | tfexample_decoder.Image _ _ _ _ => "tfexample_decoder.Image"
  | tfexample_decoder.Tensor _ => "tfexample_decoder.Tensor"
  end.

Definition descriptor_fieldT {E A : Type}
    (dataset_name : string) (field : DatasetDescriptor.t → A) : PyT E A :=
  datasets ← globalT Globals._DATASETS_INFORMATION;
  d ← evalT (dict_getitem datasets dataset_name);
  mret (field d).

(** The items of the four dictionary displays of the resolver. *)
Definition full_keys_to_features_items : list (string * tf.Feature) := [
  ("image/encoded", tf.FixedLenFeature [] tf.string (PyStr ""));
  ("image/filename", tf.FixedLenFeature [] tf.string (PyStr ""));
  ("image/format", tf.FixedLenFeature [] tf.string (PyStr "png"));
  ("image/height", tf.FixedLenFeature [] tf.int64 (PyInt 0));
  ("image/width", tf.FixedLenFeature [] tf.int64 (PyInt 0));
  ("posedict/encoded", tf.VarLenFeature tf.float32);
  ("rotuvddict/encoded", tf.VarLenFeature tf.float32);
  ("bboxdict/encoded", tf.VarLenFeature tf.float32);
  ("shapeiddict/encoded", tf.VarLenFeature tf.float32);
  ("vis/encoded", tf.FixedLenFeature [] tf.string (PyStr ""));
  ("vis/format", tf.FixedLenFeature [] tf.string (PyStr "png"));
  ("depth/encoded", tf.FixedLenFeature [] tf.string (PyStr ""));
  ("depth/format", tf.FixedLenFeature [] tf.string (PyStr "png"));
  ("seg/encoded", tf.FixedLenFeature [] tf.string (PyStr ""));
  ("seg/format", tf.FixedLenFeature [] tf.string (PyStr "png"));
  ("shape_id_map/encoded", tf.FixedLenFeature [] tf.string (PyStr ""));
  ("shape_id_map/format", tf.FixedLenFeature [] tf.string (PyStr "png"))
].

Definition full_items_to_handlers_items
  : list (string * tfexample_decoder.ItemHandler) := [
  ("image", tfexample_decoder.Image "image/encoded" "image/format" 3 tf.uint8);
  ("vis", tfexample_decoder.Image "vis/encoded" "vis/format" 3 tf.uint8);
  ("depth", tfexample_decoder.Image "depth/encoded" "depth/format" 1 tf.uint16);
  ("seg", tfexample_decoder.Image "seg/encoded" "seg/format" 1 tf.uint8);
  ("image_name", tfexample_decoder.Tensor "image/filename");
  ("height", tfexample_decoder.Tensor "image/height");
  ("width", tfexample_decoder.Tensor "image/width");
  ("pose_dict", tfexample_decoder.Tensor "posedict/encoded");
  ("rotuvd_dict", tfexample_decoder.Tensor "rotuvddict/encoded");
  ("bbox_dict", tfexample_decoder.Tensor "bboxdict/encoded");
  ("shape_id_dict", tfexample_decoder.Tensor "shapeiddict/encoded");
  ("shape_id_map",
   tfexample_decoder.Image "shape_id_map/encoded" "shape_id_map/format" 1 tf.uint8)
].

Definition test_keys_to_features_items : list (string * tf.Feature) := [
  ("image/encoded", tf.FixedLenFeature [] tf.string (PyStr ""));
  ("image/filename", tf.FixedLenFeature [] tf.string (PyStr ""));
  ("image/format", tf.FixedLenFeature [] tf.string (PyStr "png"));
  ("image/height", tf.FixedLenFeature [] tf.int64 (PyInt 0));
  ("image/width", tf.FixedLenFeature [] tf.int64 (PyInt 0));
  ("seg/encoded", tf.FixedLenFeature [] tf.string (PyStr ""));
  ("seg/format", tf.FixedLenFeature [] tf.string (PyStr "png"))
].

Definition test_items_to_handlers_items
  : list (string * tfexample_decoder.ItemHandler) := [
  ("image", tfexample_decoder.Image "image/encoded" "image/format" 3 tf.uint8);
  ("seg", tfexample_decoder.Image "seg/encoded" "seg/format" 1 tf.uint8);
  ("image_name", tfexample_decoder.Tensor "image/filename");
  ("height", tfexample_decoder.Tensor "image/height");
  ("width", tfexample_decoder.Tensor "image/width")
].

Definition get_dataset_traced {E : Type} (library : Effect → E → E)
    (FLAGS : Flags.t) (dataset_name split_name dataset_dir : string)
  : PyT E Dataset.t :=
  datasets ← globalT Globals._DATASETS_INFORMATION;
  if negb (dict_contains dataset_name datasets) then
    raiseT (ValueError "The specified dataset is not supported yet.")
  else
  splits_to_sizes ←
    descriptor_fieldT dataset_name DatasetDescriptor.splits_to_sizes;
  if negb (dict_contains split_name splits_to_sizes) then
    msg ← evalT (percent_format "data split name %s not recognized"
                   [PyStr split_name]);
    raiseT (ValueError msg)
  else
  (* Prepare the variables for different datasets. *)
  num_classes ← descriptor_fieldT dataset_name DatasetDescriptor.num_classes;
  SHAPE_DIMS ← descriptor_fieldT dataset_name DatasetDescriptor.shape_dims;
  SHAPE_BINS ← descriptor_fieldT dataset_name DatasetDescriptor.shape_bins;
  pose_range ← descriptor_fieldT dataset_name DatasetDescriptor.pose_range;
  bin_nums ← descriptor_fieldT dataset_name DatasetDescriptor.bin_nums;
  output_names ← descriptor_fieldT dataset_name DatasetDescriptor.output_names;
  output_names_summary ←
    descriptor_fieldT dataset_name DatasetDescriptor.output_names_summary;
  height_ori ← descriptor_fieldT dataset_name DatasetDescriptor.height_ori;
  width_ori ← descriptor_fieldT dataset_name DatasetDescriptor.width_ori;
  file_pattern ← globalT Globals._FILE_PATTERN;
  shards ← evalT (percent_format file_pattern [PyStr split_name]);
  file_pattern ← call library "os.path.join" (os_path_join dataset_dir shards);
  (* Specify how the TF-Examples are decoded. *)
  schema ←
    (if negb (String.eqb split_name "test") then
       keys_to_features ←
         dict_display library feature_callee full_keys_to_features_items;
       items_to_handlers ←
         dict_display library handler_callee full_items_to_handlers_items;
       mret (keys_to_features, items_to_handlers)
     else
       keys_to_features ←
         dict_display library feature_callee test_keys_to_features_items;
       items_to_handlers ←
         dict_display library handler_callee test_items_to_handlers_items;
       mret (keys_to_features, items_to_handlers));
  decoder ←
    call library "tfexample_decoder.TFExampleDecoder"
      {| tfexample_decoder.keys_to_features := schema.1;
         tfexample_decoder.items_to_handlers := schema.2 |};
  num_samples ← evalT (dict_getitem splits_to_sizes split_name);
  items_to_descriptions ← globalT Globals._ITEMS_TO_DESCRIPTIONS;
  POSE_BINS ← globalT Globals.POSE_BINS;
  if_depth ← getattr library "FLAGS" "if_depth" (Flags.if_depth FLAGS);
  call library "dataset.Dataset" {|
    Dataset.data_sources := file_pattern;
    Dataset.reader := tf.TFRecordReader;
    Dataset.decoder := decoder;
    Dataset.num_samples := num_samples;
    Dataset.items_to_descriptions := items_to_descriptions;
    Dataset.pose_range := pose_range;
    Dataset.bin_nums := bin_nums;
    Dataset.SHAPE_DIMS := SHAPE_DIMS;
    Dataset.output_names := output_names;
    Dataset.output_names_summary := output_names_summary;
    Dataset.num_classes := num_classes;
    Dataset.SHAPE_BINS := SHAPE_BINS;
    Dataset.POSE_BINS := POSE_BINS;
    Dataset.name := dataset_name;
    Dataset.height_ori := height_ori;
    Dataset.width_ori := width_ori;
    Dataset.multi_label := true;
    Dataset.if_depth := if_depth;
  |}.

(** The library interactions of building the schema of a split. *)
Definition schema_effects (split_name : string) : list Effect :=
  if negb (String.eqb split_name "test")
  then ((λ item, Call (feature_callee item.2)) <$> full_keys_to_features_items)
       ++ ((λ item, Call (handler_callee item.2)) <$> full_items_to_handlers_items)
  else ((λ item, Call (feature_callee item.2)) <$> test_keys_to_features_items)
       ++ ((λ item, Call (handler_callee item.2)) <$> test_items_to_handlers_items).

(** The library interactions of a call that returns. *)
Definition returning_effects (split_name : string) : list Effect :=
  [Call "os.path.join"]
    ++ schema_effects split_name
    ++ [Call "tfexample_decoder.TFExampleDecoder";
        GetAttr "FLAGS" "if_depth";
        Call "dataset.Dataset"].

(** The library interactions of a call, by its outcome: none when it raises. *)
Definition footprint (g : Globals.t) (dataset_name split_name : string)
  : list Effect :=
  match Globals._DATASETS_INFORMATION g !! dataset_name with
  | None => []
  | Some d =>
      match DatasetDescriptor.splits_to_sizes d !! split_name with
      | None => []
      | Some _ =>
          match percent_format (Globals._FILE_PATTERN g) [PyStr split_name] with
          | Returned _ => returning_effects split_name
          | Raised _ => []
          end
      end
  end.

(** The interactions that build a value from their arguments or read the
    configuration: the constructors of [tf] and [slim] the resolver names,
    [os.path.join], and [FLAGS.if_depth].  Instantiating the reader, opening
    or listing files are not among them. *)
Definition value_builders : list Effect := [
  Call "os.path.join";
  Call "tf.FixedLenFeature";
  Call "tf.VarLenFeature";
  Call "tfexample_decoder.Image";
  Call "tfexample_decoder.Tensor";
  Call "tfexample_decoder.TFExampleDecoder";
  Call "dataset.Dataset";
  GetAttr "FLAGS" "if_depth"
].

(** A library that counts the reader instantiations and acts on nothing
    else, and one that counts every interaction. *)
Definition counting_reader (a : Effect) (e : nat) : nat :=
  if bool_decide (a = Call "tf.TFRecordReader") then S e else e.

Definition counting_all (a : Effect) (e : nat) : nat := S e.

(** * Properties *)

(** ** Formatting and path joining *)

Lemma percent_format_split_message (split_name : string) :
  percent_format "data split name %s not recognized" [PyStr split_name]
  = Returned ("data split name " +:+ split_name +:+ " not recognized").
Proof. reflexivity. Qed.

Lemma percent_format_file_pattern (split_name : string) :
  percent_format _FILE_PATTERN [PyStr split_name] = Returned (split_name +:+ "-*").
Proof. reflexivity. Qed.

Lemma os_path_join_relative (a b : string) :
  startswith_sep b = false →
  os_path_join a b
  = if is_empty a || endswith_sep a then a +:+ b else a +:+ "/" +:+ b.
Proof. intros Hb. unfold os_path_join. by rewrite Hb. Qed.

(** ** Computations that only read the module state *)

Lemma read_only_ret {A : Type} (a : A) : read_only (mret a).
Proof. by intros g. Qed.

Lemma read_only_raise {A : Type} (e : exn) : read_only (@raise A e).
Proof. by intros g. Qed.

Lemma read_only_global {A : Type} (name : Globals.t → A) : read_only (global name).
Proof. by intros g. Qed.

Lemma read_only_eval {A : Type} (r : Outcome A) : read_only (eval r).
Proof. by intros g. Qed.

Lemma read_only_bind {A B : Type} (m : Py A) (f : A → Py B) :
  read_only m → (∀ a, read_only (f a)) → read_only (m ≫= f).
Proof.
  intros Hm Hf g. unfold mbind, Py_bind.
  specialize (Hm g). destruct (m g) as [[a|e] g1]; simpl in *; subst g1.
  - apply Hf.
  - done.
Qed.

Lemma read_only_if {A : Type} (b : bool) (m1 m2 : Py A) :
  read_only m1 → read_only m2 → read_only (if b then m1 else m2).
Proof. by destruct b. Qed.

Create HintDb read_only.
#[local] Hint Resolve read_only_ret read_only_raise read_only_global
  read_only_eval read_only_if : read_only.

Ltac read_only_step :=
  first [ apply read_only_bind; [ | intros ? ]
        | apply read_only_if
        | solve [ auto with read_only ] ].

Lemma read_only_descriptor_field {A : Type}
    (dataset_name : string) (field : DatasetDescriptor.t → A) :
  read_only (descriptor_field dataset_name field).
Proof. unfold descriptor_field. repeat read_only_step. Qed.

#[local] Hint Resolve read_only_descriptor_field : read_only.

Lemma read_only_get_dataset
    (FLAGS : Flags.t) (dataset_name split_name dataset_dir : string) :
  read_only (get_dataset FLAGS dataset_name split_name dataset_dir).
Proof.
  unfold get_dataset. repeat read_only_step.
  destruct (negb (split_name =? "test")%string); repeat read_only_step.
Qed.

(** ** What the resolver returns *)

(** One step of a resolver body. *)
Lemma bind_global {A B : Type} (name : Globals.t → A) (f : A → Py B)
    (g : Globals.t) :
  (global name ≫= f) g = f (name g) g.
Proof. reflexivity. Qed.

Lemma bind_eval {A B : Type} (r : Outcome A) (f : A → Py B) (g : Globals.t) :
  (eval r ≫= f) g
  = match r with Returned a => f a g | Raised e => (Raised e, g) end.
Proof. by destruct r. Qed.

Lemma bind_descriptor_field {A B : Type} (dataset_name : string)
    (field : DatasetDescriptor.t → A) (f : A → Py B) (g : Globals.t)
    (d : DatasetDescriptor.t) :
  Globals._DATASETS_INFORMATION g !! dataset_name = Some d →
  (descriptor_field dataset_name field ≫= f) g = f (field d) g.
Proof.
  intros Hd. unfold descriptor_field, mbind, Py_bind, global, eval, dict_getitem.
  by rewrite Hd.
Qed.

(** The whole behaviour of the resolver, by cases on the two lookups. *)
Lemma get_dataset_cases (g : Globals.t) (FLAGS : Flags.t)
    (dataset_name split_name dataset_dir : string) :
  get_dataset FLAGS dataset_name split_name dataset_dir g =
  match Globals._DATASETS_INFORMATION g !! dataset_name with
  | None => (Raised unsupported_dataset_error, g)
  | Some d =>
      match DatasetDescriptor.splits_to_sizes d !! split_name with
      | None => (Raised (unrecognized_split_error split_name), g)
      | Some n =>
          match percent_format (Globals._FILE_PATTERN g) [PyStr split_name] with
          | Returned shards =>
              (Returned (handle_of g FLAGS d n dataset_name split_name
                           dataset_dir shards), g)
          | Raised e => (Raised e, g)
          end
      end
  end.
Proof.
  unfold get_dataset. rewrite bind_global. unfold dict_contains at 1.
  destruct (Globals._DATASETS_INFORMATION g !! dataset_name) as [d|] eqn:Hd;
    [|done].
  cbn [negb]. rewrite (bind_descriptor_field _ _ _ _ _ Hd).
  unfold dict_contains.
  destruct (DatasetDescriptor.splits_to_sizes d !! split_name) as [n|] eqn:Hn;
    cbn [negb].
  - repeat (rewrite (bind_descriptor_field _ _ _ _ _ Hd); cbv beta).
    rewrite bind_global, bind_eval.
    destruct (percent_format _ _) as [shards|e]; [|done].
    unfold handle_of, decoder_of.
    destruct (String.eqb split_name "test"); cbn [negb];
      by rewrite bind_eval; unfold dict_getitem; rewrite Hn.
  - by rewrite bind_eval, percent_format_split_message.
Qed.

(** The registry holds one dataset. *)
Lemma datasets_lookup (dataset_name : string) :
  _DATASETS_INFORMATION !! dataset_name
  = if decide (dataset_name = "apolloscape")
    then Some _APOLLOSCAPE_INFORMATION else None.
Proof.
  unfold _DATASETS_INFORMATION. cbn [py_dict foldl fst snd].
  case_decide as H.
  - subst. by rewrite lookup_insert_eq.
  - by rewrite lookup_insert_ne, lookup_empty.
Qed.

(** The splits of the registered dataset. *)
Lemma splits_lookup (split_name : string) :
  DatasetDescriptor.splits_to_sizes _APOLLOSCAPE_INFORMATION !! split_name
  = if decide (split_name = "test") then Some 1041
    else if decide (split_name = "val") then Some 480
    else if decide (split_name = "train") then Some 4611
    else None.
Proof.
  cbn [_APOLLOSCAPE_INFORMATION DatasetDescriptor.splits_to_sizes
       py_dict foldl fst snd].
  repeat case_decide; subst; by try simplify_map_eq.
Qed.

Lemma get_dataset_returns_inv (g g' : Globals.t) (FLAGS : Flags.t)
    (dataset_name split_name dataset_dir : string) (h : Dataset.t) :
  get_dataset FLAGS dataset_name split_name dataset_dir g = (Returned h, g') →
  ∃ d n shards,
    Globals._DATASETS_INFORMATION g !! dataset_name = Some d
    ∧ DatasetDescriptor.splits_to_sizes d !! split_name = Some n
    ∧ percent_format (Globals._FILE_PATTERN g) [PyStr split_name] = Returned shards
    ∧ h = handle_of g FLAGS d n dataset_name split_name dataset_dir shards
    ∧ g' = g.
Proof.
  rewrite get_dataset_cases.
  destruct (Globals._DATASETS_INFORMATION g !! dataset_name) as [d|] eqn:Hd;
    [|done].
  destruct (DatasetDescriptor.splits_to_sizes d !! split_name) as [n|] eqn:Hn;
    [|done].
  destruct (percent_format _ _) as [shards|e] eqn:Hf; [|done].
  intros [= <- <-]. by exists d, n, shards.
Qed.

(** ** The resolver on the module as imported *)

Lemma get_dataset_module_returns (FLAGS : Flags.t)
    (split_name dataset_dir : string) (n : Z) :
  DatasetDescriptor.splits_to_sizes _APOLLOSCAPE_INFORMATION !! split_name = Some n →
  get_dataset FLAGS "apolloscape" split_name dataset_dir module_globals
  = (Returned (handle_of module_globals FLAGS _APOLLOSCAPE_INFORMATION n
                 "apolloscape" split_name dataset_dir (split_name +:+ "-*")),
     module_globals).
Proof.
  intros Hn. rewrite get_dataset_cases.
  cbn [module_globals Globals._DATASETS_INFORMATION Globals._FILE_PATTERN].
  rewrite datasets_lookup, decide_True by done.
  by rewrite Hn, percent_format_file_pattern.
Qed.

Lemma get_dataset_module_inv (FLAGS : Flags.t)
    (dataset_name split_name dataset_dir : string) (h : Dataset.t)
    (g' : Globals.t) :
  get_dataset FLAGS dataset_name split_name dataset_dir module_globals
  = (Returned h, g') →
  dataset_name = "apolloscape"
  ∧ g' = module_globals
  ∧ ∃ n,
      DatasetDescriptor.splits_to_sizes _APOLLOSCAPE_INFORMATION !! split_name
      = Some n
      ∧ h = handle_of module_globals FLAGS _APOLLOSCAPE_INFORMATION n
              "apolloscape" split_name dataset_dir (split_name +:+ "-*").
Proof.
  intros Hcall.
  apply get_dataset_returns_inv in Hcall
    as (d & n & shards & Hd & Hn & Hf & -> & ->).
  cbn [module_globals Globals._DATASETS_INFORMATION Globals._FILE_PATTERN] in Hd, Hf.
  rewrite datasets_lookup in Hd. case_decide as Hname; [|done].
  injection Hd as <-. rewrite percent_format_file_pattern in Hf.
  injection Hf as <-. subst dataset_name. eauto.
Qed.

(** A split name that the registered dataset declares does not start with
    the path separator. *)
Lemma declared_split_relative (split_name : string) (n : Z) :
  DatasetDescriptor.splits_to_sizes _APOLLOSCAPE_INFORMATION !! split_name = Some n →
  startswith_sep (split_name +:+ "-*") = false.
Proof.
  rewrite splits_lookup. repeat case_decide; by subst.
Qed.

(** ** Claims *)

(** C1: for the registered dataset "apolloscape", whose declared split names
    are "train", "val" and "test", resolving each of them returns a handle,
    and the handle's [num_samples] is the literal configured for the split:
    4611, 480 and 1041. *)
Theorem get_dataset_apolloscape_num_samples (FLAGS : Flags.t) (dataset_dir : string) :
  dom (DatasetDescriptor.splits_to_sizes _APOLLOSCAPE_INFORMATION)
  = {[ "train"; "val"; "test" ]}
  ∧ (∃ h, get_dataset FLAGS "apolloscape" "train" dataset_dir module_globals
          = (Returned h, module_globals)
          ∧ Dataset.num_samples h = 4611)
  ∧ (∃ h, get_dataset FLAGS "apolloscape" "val" dataset_dir module_globals
          = (Returned h, module_globals)
          ∧ Dataset.num_samples h = 480)
  ∧ (∃ h, get_dataset FLAGS "apolloscape" "test" dataset_dir module_globals
          = (Returned h, module_globals)
          ∧ Dataset.num_samples h = 1041).
Proof.
  split; [by apply (bool_decide_unpack _); vm_compute|].
  repeat split; eexists; (split; [by apply get_dataset_module_returns|done]).
Qed.

(** C2: for a dataset name that is not in the registry, whatever the
    configuration, the split name and the directory, the resolver raises the
    unsupported-dataset error, which is not the unrecognized-split error of
    any split name; the module state is as before. *)
Theorem get_dataset_unsupported_dataset (FLAGS : Flags.t)
    (dataset_name split_name dataset_dir : string) :
  _DATASETS_INFORMATION !! dataset_name = None →
  get_dataset FLAGS dataset_name split_name dataset_dir module_globals
  = (Raised unsupported_dataset_error, module_globals)
  ∧ ∀ s, unsupported_dataset_error ≠ unrecognized_split_error s.
Proof.
  intros Hd. split; [|done].
  rewrite get_dataset_cases.
  cbn [module_globals Globals._DATASETS_INFORMATION]. by rewrite Hd.
Qed.

Lemma get_dataset_unsupported_dataset_witness :
  _DATASETS_INFORMATION !! "nonexistent" = None
  ∧ get_dataset {| Flags.if_depth := true |} "nonexistent" "train" "/data"
      module_globals
    = (Raised unsupported_dataset_error, module_globals)
  ∧ ∀ s, unsupported_dataset_error ≠ unrecognized_split_error s.
Proof.
  split.
  - vm_compute. reflexivity.
  - apply (get_dataset_unsupported_dataset
             {| Flags.if_depth := true |} "nonexistent" "train" "/data").
    vm_compute. reflexivity.
Defined.

(** C3: for the registered dataset "apolloscape" and a split name that is
    not a key of its [splits_to_sizes], the resolver raises the
    unrecognized-split error.  In general the resolver raises exactly when
    the dataset name is not registered or the split name is not a split of
    the registered dataset, and returns a handle exactly when both are
    known. *)
Theorem get_dataset_unrecognized_split (FLAGS : Flags.t)
    (dataset_name split_name dataset_dir : string) :
  (dataset_name = "apolloscape" →
   DatasetDescriptor.splits_to_sizes _APOLLOSCAPE_INFORMATION !! split_name = None →
   get_dataset FLAGS dataset_name split_name dataset_dir module_globals
   = (Raised (unrecognized_split_error split_name), module_globals))
  ∧ ((∃ e, (get_dataset FLAGS dataset_name split_name dataset_dir
              module_globals).1 = Raised e)
     ↔ (_DATASETS_INFORMATION !! dataset_name = None
        ∨ ∃ d, _DATASETS_INFORMATION !! dataset_name = Some d
               ∧ DatasetDescriptor.splits_to_sizes d !! split_name = None))
  ∧ ((∃ h, (get_dataset FLAGS dataset_name split_name dataset_dir
              module_globals).1 = Returned h)
     ↔ (∃ d n, _DATASETS_INFORMATION !! dataset_name = Some d
               ∧ DatasetDescriptor.splits_to_sizes d !! split_name = Some n)).
Proof.
  rewrite get_dataset_cases.
  cbn [module_globals Globals._DATASETS_INFORMATION Globals._FILE_PATTERN].
  rewrite percent_format_file_pattern.
  split; [|split].
  - intros -> Hn. rewrite datasets_lookup, decide_True by done. by rewrite Hn.
  - destruct (_DATASETS_INFORMATION !! dataset_name) as [d|]; cbn [fst].
    + destruct (DatasetDescriptor.splits_to_sizes d !! split_name) as [n|] eqn:Hn;
        cbn [fst].
      * split; [by intros [e ?]|]. intros [|(d' & [= <-] & Hn')]; [done|].
        by rewrite Hn in Hn'.
      * split; [|by eauto]. intros _. right. by exists d.
    + split; [by left|by eauto].
  - destruct (_DATASETS_INFORMATION !! dataset_name) as [d|]; cbn [fst].
    + destruct (DatasetDescriptor.splits_to_sizes d !! split_name) as [n|] eqn:Hn;
        cbn [fst].
      * split; [by eauto|by eauto].
      * split; [by intros [h ?]|]. intros (d' & n & [= <-] & Hn').
        by rewrite Hn in Hn'.
    + split; [by intros [h ?]|]. by intros (d & n & ? & _).
Qed.

Lemma get_dataset_unrecognized_split_witness :
  "apolloscape" = "apolloscape"
  ∧ DatasetDescriptor.splits_to_sizes _APOLLOSCAPE_INFORMATION !! "trainval" = None
  ∧ get_dataset {| Flags.if_depth := false |} "apolloscape" "trainval" "/data"
      module_globals
    = (Raised (unrecognized_split_error "trainval"), module_globals).
Proof.
  split; [reflexivity|]. split; [vm_compute; reflexivity|].
  apply (get_dataset_unrecognized_split
           {| Flags.if_depth := false |} "apolloscape" "trainval" "/data").
  - reflexivity.
  - vm_compute. reflexivity.
Defined.

(** C4 (amended): for every call that returns, the file pattern of the
    handle is [os.path.join(dataset_dir, split_name + "-*")], whatever the
    configuration and the dataset name: the directory, a separator and
    "<split_name>-*" when the directory is not empty and does not end with
    the separator, and the directory immediately followed by
    "<split_name>-*" when it is empty or already ends with the separator. *)
Theorem get_dataset_file_pattern (FLAGS : Flags.t)
    (dataset_name split_name dataset_dir : string) (h : Dataset.t)
    (g' : Globals.t) :
  get_dataset FLAGS dataset_name split_name dataset_dir module_globals
  = (Returned h, g') →
  Dataset.data_sources h = os_path_join dataset_dir (split_name +:+ "-*")
  ∧ Dataset.data_sources h
    = if is_empty dataset_dir || endswith_sep dataset_dir
      then dataset_dir +:+ split_name +:+ "-*"
      else dataset_dir +:+ "/" +:+ split_name +:+ "-*".
Proof.
  intros Hcall.
  apply get_dataset_module_inv in Hcall as (_ & _ & n & Hn & ->).
  cbn [handle_of Dataset.data_sources]. split; [done|].
  apply os_path_join_relative. by eapply declared_split_relative.
Qed.

Lemma get_dataset_file_pattern_witness :
  get_dataset {| Flags.if_depth := true |} "apolloscape" "val" "/data"
    module_globals
  = (Returned (handle_of module_globals {| Flags.if_depth := true |}
                 _APOLLOSCAPE_INFORMATION 480 "apolloscape" "val" "/data" "val-*"),
     module_globals)
  ∧ Dataset.data_sources
      (handle_of module_globals {| Flags.if_depth := true |}
         _APOLLOSCAPE_INFORMATION 480 "apolloscape" "val" "/data" "val-*")
    = "/data/val-*".
Proof.
  assert (Hcall :
    get_dataset {| Flags.if_depth := true |} "apolloscape" "val" "/data"
      module_globals
    = (Returned (handle_of module_globals {| Flags.if_depth := true |}
                   _APOLLOSCAPE_INFORMATION 480 "apolloscape" "val" "/data"
                   "val-*"),
       module_globals)) by reflexivity.
  split; [exact Hcall|].
  exact (proj2 (get_dataset_file_pattern _ _ _ _ _ _ Hcall)).
Defined.

(** With a directory that ends with the separator, or with an empty
    directory, the pattern is not "<dataset_dir>/<split_name>-*". *)
Lemma get_dataset_file_pattern_counterexample :
  (∃ h, get_dataset {| Flags.if_depth := false |} "apolloscape" "train" "/data/"
          module_globals
        = (Returned h, module_globals)
        ∧ Dataset.data_sources h = "/data/train-*"
        ∧ Dataset.data_sources h ≠ "/data/" +:+ "/" +:+ "train" +:+ "-*")
  ∧ (∃ h, get_dataset {| Flags.if_depth := false |} "apolloscape" "train" ""
            module_globals
          = (Returned h, module_globals)
          ∧ Dataset.data_sources h = "train-*"
          ∧ Dataset.data_sources h ≠ "" +:+ "/" +:+ "train" +:+ "-*").
Proof.
  split; eexists; (split; [by apply get_dataset_module_returns|by split]).
Qed.

Lemma full_keys_dom :
  dom full_keys_to_features = image_keys ∪ seg_keys ∪ pose_shape_depth_vis_keys
  ∧ size (dom full_keys_to_features) = 17%nat
  ∧ size full_items_to_handlers = 12%nat.
Proof.
  split; [|split; reflexivity]. by apply (bool_decide_unpack _); vm_compute.
Qed.

Lemma test_keys_dom :
  dom test_keys_to_features = image_keys ∪ seg_keys
  ∧ size (dom test_keys_to_features) = 7%nat
  ∧ size test_items_to_handlers = 5%nat
  ∧ dom test_keys_to_features ∩ pose_shape_depth_vis_keys = ∅.
Proof.
  split; [|split; [|split]]; [|reflexivity|reflexivity|];
    by apply (bool_decide_unpack _); vm_compute.
Qed.

(** C5 (amended): for every call that returns, whatever the module state,
    the schema of a split other than "test" has exactly the seventeen record
    keys of the image, seg, pose, shape, depth and vis families, decoded
    into twelve items, and the schema of "test" has exactly the seven keys
    of the image and seg families, decoded into five items, with no pose,
    shape, depth or vis key. *)
Theorem get_dataset_schema_keys (g g' : Globals.t) (FLAGS : Flags.t)
    (dataset_name split_name dataset_dir : string) (h : Dataset.t) :
  get_dataset FLAGS dataset_name split_name dataset_dir g = (Returned h, g') →
  (split_name ≠ "test" →
   dom (tfexample_decoder.keys_to_features (Dataset.decoder h))
   = image_keys ∪ seg_keys ∪ pose_shape_depth_vis_keys
   ∧ size (dom (tfexample_decoder.keys_to_features (Dataset.decoder h)))
     = 17%nat
   ∧ size (tfexample_decoder.items_to_handlers (Dataset.decoder h)) = 12%nat)
  ∧ (split_name = "test" →
     dom (tfexample_decoder.keys_to_features (Dataset.decoder h))
     = image_keys ∪ seg_keys
     ∧ size (dom (tfexample_decoder.keys_to_features (Dataset.decoder h)))
       = 7%nat
     ∧ size (tfexample_decoder.items_to_handlers (Dataset.decoder h)) = 5%nat
     ∧ ∀ k, k ∈ pose_shape_depth_vis_keys →
            tfexample_decoder.keys_to_features (Dataset.decoder h) !! k = None).
Proof.
  intros Hcall.
  apply get_dataset_returns_inv in Hcall as (d & n & shards & _ & _ & _ & -> & _).
  cbn [handle_of Dataset.decoder]. unfold decoder_of.
  destruct (String.eqb_spec split_name "test") as [Heq|Hne]; cbn [negb];
    cbn [tfexample_decoder.keys_to_features
         tfexample_decoder.items_to_handlers].
  - split; [intros Hne; exact (False_ind _ (Hne Heq))|]. intros _.
    destruct test_keys_dom as (Hdom & Hsize & Hitems & Hdisj).
    split; [exact Hdom|]. split; [exact Hsize|]. split; [exact Hitems|].
    intros k Hk. apply not_elem_of_dom. intros Hin.
    assert (Hboth : k ∈ dom test_keys_to_features ∩ pose_shape_depth_vis_keys)
      by (apply elem_of_intersection; split; assumption).
    rewrite Hdisj in Hboth.
    exact (not_elem_of_empty (C:=gset string) k Hboth).
  - split; [|intros Heq; exact (False_ind _ (Hne Heq))]. intros _.
    exact full_keys_dom.
Qed.

Lemma get_dataset_schema_keys_witness :
  get_dataset {| Flags.if_depth := true |} "apolloscape" "test" "/data"
    module_globals
  = (Returned (handle_of module_globals {| Flags.if_depth := true |}
                 _APOLLOSCAPE_INFORMATION 1041 "apolloscape" "test" "/data"
                 "test-*"),
     module_globals)
  ∧ "test" = "test"
  ∧ size (dom (tfexample_decoder.keys_to_features
                 (Dataset.decoder
                    (handle_of module_globals {| Flags.if_depth := true |}
                       _APOLLOSCAPE_INFORMATION 1041 "apolloscape" "test"
                       "/data" "test-*"))))
    = 7%nat.
Proof.
  assert (Hcall :
    get_dataset {| Flags.if_depth := true |} "apolloscape" "test" "/data"
      module_globals
    = (Returned (handle_of module_globals {| Flags.if_depth := true |}
                   _APOLLOSCAPE_INFORMATION 1041 "apolloscape" "test" "/data"
                   "test-*"),
       module_globals)) by reflexivity.
  split; [exact Hcall|]. split; [reflexivity|].
  exact (proj1 (proj2 (proj2 (get_dataset_schema_keys _ _ _ _ _ _ _ Hcall)
                         eq_refl))).
Defined.

(** The schema of "train" has seventeen keys and twelve items, not
    fourteen, and the schema of "test" has seven keys, not five. *)
Lemma get_dataset_schema_keys_counterexample :
  (∃ h, get_dataset {| Flags.if_depth := false |} "apolloscape" "train" "/data"
          module_globals
        = (Returned h, module_globals)
        ∧ size (dom (tfexample_decoder.keys_to_features (Dataset.decoder h)))
          ≠ 14%nat
        ∧ size (tfexample_decoder.items_to_handlers (Dataset.decoder h))
          ≠ 14%nat)
  ∧ (∃ h, get_dataset {| Flags.if_depth := false |} "apolloscape" "test" "/data"
            module_globals
          = (Returned h, module_globals)
          ∧ size (dom (tfexample_decoder.keys_to_features (Dataset.decoder h)))
            ≠ 5%nat).
Proof.
  split; eexists;
    (split; [by apply get_dataset_module_returns|repeat split; by vm_compute]).
Qed.

(** C6 (amended): for the registered descriptor, [pose_range] has 8
    entries, one per fixed pose channel, and [bin_nums] has 18 entries,
    [shape_dims] = 10 plus the 8 fixed pose channels. *)
Theorem apolloscape_pose_range_bin_nums_lengths :
  length (DatasetDescriptor.pose_range _APOLLOSCAPE_INFORMATION) = 8%nat
  ∧ length (DatasetDescriptor.bin_nums _APOLLOSCAPE_INFORMATION) = 18%nat
  ∧ DatasetDescriptor.shape_dims _APOLLOSCAPE_INFORMATION = 10
  ∧ Z.of_nat (length (DatasetDescriptor.bin_nums _APOLLOSCAPE_INFORMATION))
    = DatasetDescriptor.shape_dims _APOLLOSCAPE_INFORMATION
      + Z.of_nat (length (DatasetDescriptor.pose_range _APOLLOSCAPE_INFORMATION)).
Proof. repeat split. Qed.

(** The two sequences do not have the same length, and [pose_range] does
    not have 18 entries. *)
Lemma apolloscape_pose_range_bin_nums_lengths_counterexample :
  length (DatasetDescriptor.pose_range _APOLLOSCAPE_INFORMATION)
  ≠ length (DatasetDescriptor.bin_nums _APOLLOSCAPE_INFORMATION)
  ∧ length (DatasetDescriptor.pose_range _APOLLOSCAPE_INFORMATION) ≠ 18%nat.
Proof. split; vm_compute; discriminate. Qed.



(** C9 (amended): for the registered descriptor, [output_names] has
    [shape_dims] plus the 8 fixed pose channels, 18 entries, and
    [output_names_summary] has [shape_dims] plus 7, 17 entries: the summary
    names one depth channel, "z_object", where [output_names] names two. *)
Theorem apolloscape_output_names_lengths :
  Z.of_nat (length (DatasetDescriptor.output_names _APOLLOSCAPE_INFORMATION))
  = DatasetDescriptor.shape_dims _APOLLOSCAPE_INFORMATION + 8
  ∧ length (DatasetDescriptor.output_names _APOLLOSCAPE_INFORMATION) = 18%nat
  ∧ Z.of_nat
      (length (DatasetDescriptor.output_names_summary _APOLLOSCAPE_INFORMATION))
    = DatasetDescriptor.shape_dims _APOLLOSCAPE_INFORMATION + 7
  ∧ length (DatasetDescriptor.output_names_summary _APOLLOSCAPE_INFORMATION)
    = 17%nat
  ∧ DatasetDescriptor.output_names _APOLLOSCAPE_INFORMATION
    = [ "q1"; "q2"; "q3"; "q4"; "x"; "y"; "z_log_dense"; "z_log_offset";
        "shape_0"; "shape_1"; "shape_2"; "shape_3"; "shape_4"; "shape_5";
        "shape_6"; "shape_7"; "shape_8"; "shape_9" ].
Proof. repeat split. Qed.

(** [output_names_summary] does not have 18 entries. *)
Lemma apolloscape_output_names_lengths_counterexample :
  length (DatasetDescriptor.output_names_summary _APOLLOSCAPE_INFORMATION)
  ≠ 18%nat.
Proof. vm_compute. discriminate. Qed.

(** C10: whatever the registry holds and whichever dataset is resolved, the
    [POSE_BINS] of a returned handle is the module-level constant, 128,
    while [SHAPE_DIMS] and [SHAPE_BINS] are those of the descriptor found in
    the registry. *)
Theorem get_dataset_pose_bins (registry : gmap string DatasetDescriptor.t)
    (FLAGS : Flags.t) (dataset_name split_name dataset_dir : string)
    (h : Dataset.t) (g' : Globals.t) :
  get_dataset FLAGS dataset_name split_name dataset_dir
    (with_registry module_globals registry)
  = (Returned h, g') →
  Dataset.POSE_BINS h = POSE_BINS
  ∧ Dataset.POSE_BINS h = 128
  ∧ ∃ d, registry !! dataset_name = Some d
         ∧ Dataset.SHAPE_DIMS h = DatasetDescriptor.shape_dims d
         ∧ Dataset.SHAPE_BINS h = DatasetDescriptor.shape_bins d.
Proof.
  intros Hcall.
  apply get_dataset_returns_inv in Hcall
    as (d & n & shards & Hd & _ & _ & -> & _).
  split; [reflexivity|]. split; [reflexivity|]. by exists d.
Qed.

Lemma get_dataset_pose_bins_witness :
  get_dataset {| Flags.if_depth := true |} "other" "train" "/data"
    (with_registry module_globals
       (py_dict [("apolloscape", _APOLLOSCAPE_INFORMATION);
                 ("other", other_descriptor)]))
  = (Returned
       (handle_of
          (with_registry module_globals
             (py_dict [("apolloscape", _APOLLOSCAPE_INFORMATION);
                       ("other", other_descriptor)]))
          {| Flags.if_depth := true |} other_descriptor 1 "other" "train"
          "/data" "train-*"),
     with_registry module_globals
       (py_dict [("apolloscape", _APOLLOSCAPE_INFORMATION);
                 ("other", other_descriptor)]))
  ∧ Dataset.POSE_BINS
      (handle_of
         (with_registry module_globals
            (py_dict [("apolloscape", _APOLLOSCAPE_INFORMATION);
                      ("other", other_descriptor)]))
         {| Flags.if_depth := true |} other_descriptor 1 "other" "train"
         "/data" "train-*")
    = 128.
Proof.
  assert (Hcall :
    get_dataset {| Flags.if_depth := true |} "other" "train" "/data"
      (with_registry module_globals
         (py_dict [("apolloscape", _APOLLOSCAPE_INFORMATION);
                   ("other", other_descriptor)]))
    = (Returned
         (handle_of
            (with_registry module_globals
               (py_dict [("apolloscape", _APOLLOSCAPE_INFORMATION);
                         ("other", other_descriptor)]))
            {| Flags.if_depth := true |} other_descriptor 1 "other" "train"
            "/data" "train-*"),
       with_registry module_globals
         (py_dict [("apolloscape", _APOLLOSCAPE_INFORMATION);
                   ("other", other_descriptor)]))) by reflexivity.
  split; [exact Hcall|].
  exact (proj1 (proj2 (get_dataset_pose_bins _ _ _ _ _ _ _ Hcall))).
Defined.

(** ** Further properties of the resolver and of the registry *)

(** X1: a returned handle carries the fields of the descriptor registered
    under the dataset name unchanged, the size of the split as
    [num_samples], the dataset name as [name], the module's item
    descriptions, the record reader, and [multi_label] set; this holds in
    every module state. *)
Theorem get_dataset_handle_fields (g g' : Globals.t) (FLAGS : Flags.t)
    (dataset_name split_name dataset_dir : string) (h : Dataset.t) :
  get_dataset FLAGS dataset_name split_name dataset_dir g = (Returned h, g') →
  ∃ d, Globals._DATASETS_INFORMATION g !! dataset_name = Some d
       ∧ DatasetDescriptor.splits_to_sizes d !! split_name
         = Some (Dataset.num_samples h)
       ∧ Dataset.name h = dataset_name
       ∧ Dataset.multi_label h = true
       ∧ Dataset.reader h = tf.TFRecordReader
       ∧ Dataset.items_to_descriptions h = Globals._ITEMS_TO_DESCRIPTIONS g
       ∧ Dataset.num_classes h = DatasetDescriptor.num_classes d
       ∧ Dataset.pose_range h = DatasetDescriptor.pose_range d
       ∧ Dataset.bin_nums h = DatasetDescriptor.bin_nums d
       ∧ Dataset.output_names h = DatasetDescriptor.output_names d
       ∧ Dataset.output_names_summary h
         = DatasetDescriptor.output_names_summary d
       ∧ Dataset.height_ori h = DatasetDescriptor.height_ori d
       ∧ Dataset.width_ori h = DatasetDescriptor.width_ori d.
Proof.
  intros Hcall.
  apply get_dataset_returns_inv in Hcall
    as (d & n & shards & Hd & Hn & _ & -> & _).
  exists d. cbn [handle_of Dataset.num_samples Dataset.name Dataset.multi_label
                 Dataset.reader Dataset.items_to_descriptions
                 Dataset.num_classes Dataset.pose_range Dataset.bin_nums
                 Dataset.output_names Dataset.output_names_summary
                 Dataset.height_ori Dataset.width_ori].
  repeat (split; [first [exact Hd | exact Hn | reflexivity]|]). reflexivity.
Qed.

Lemma get_dataset_handle_fields_witness :
  get_dataset {| Flags.if_depth := true |} "apolloscape" "val" "/data"
    module_globals
  = (Returned (handle_of module_globals {| Flags.if_depth := true |}
                 _APOLLOSCAPE_INFORMATION 480 "apolloscape" "val" "/data" "val-*"),
     module_globals)
  ∧ ∃ d, _DATASETS_INFORMATION !! "apolloscape" = Some d
         ∧ DatasetDescriptor.splits_to_sizes d !! "val" = Some 480.
Proof.
  assert (Hcall :
    get_dataset {| Flags.if_depth := true |} "apolloscape" "val" "/data"
      module_globals
    = (Returned (handle_of module_globals {| Flags.if_depth := true |}
                   _APOLLOSCAPE_INFORMATION 480 "apolloscape" "val" "/data"
                   "val-*"),
       module_globals)) by reflexivity.
  split; [exact Hcall|].
  destruct (get_dataset_handle_fields _ _ _ _ _ _ _ Hcall) as (d & Hd & Hn & _).
  exists d. split; [exact Hd|exact Hn].
Defined.

(** Every record key read by a handler of either schema is declared. *)
Lemma schemas_declare_read_keys :
  map_Forall
    (λ _ handler, Forall (λ k, is_Some (full_keys_to_features !! k))
                    (handler_keys handler))
    full_items_to_handlers
  ∧ map_Forall
      (λ _ handler, Forall (λ k, is_Some (test_keys_to_features !! k))
                      (handler_keys handler))
      test_items_to_handlers.
Proof. split; by apply (bool_decide_unpack _); vm_compute. Qed.

Lemma schemas_read_declared_keys :
  read_keys (decoder_of "train") = dom full_keys_to_features
  ∧ read_keys (decoder_of "test") = dom test_keys_to_features.
Proof. split; by apply (bool_decide_unpack _); vm_compute. Qed.

Lemma decoder_of_not_test (split_name : string) :
  split_name ≠ "test" → decoder_of split_name = decoder_of "train".
Proof.
  intros Hne. unfold decoder_of.
  destruct (String.eqb_spec split_name "test") as [Heq|_];
    [exact (False_ind _ (Hne Heq))|reflexivity].
Qed.

(** X2: in the decoder of a returned handle, every record key that an item
    handler reads is a key of [keys_to_features], and every key of
    [keys_to_features] is read by some handler: the declared features and
    the features the handlers use coincide, for both schemas. *)
Theorem get_dataset_schema_closed (g g' : Globals.t) (FLAGS : Flags.t)
    (dataset_name split_name dataset_dir : string) (h : Dataset.t) :
  get_dataset FLAGS dataset_name split_name dataset_dir g = (Returned h, g') →
  (∀ item handler k,
     tfexample_decoder.items_to_handlers (Dataset.decoder h) !! item
     = Some handler →
     k ∈ handler_keys handler →
     is_Some (tfexample_decoder.keys_to_features (Dataset.decoder h) !! k))
  ∧ read_keys (Dataset.decoder h)
    = dom (tfexample_decoder.keys_to_features (Dataset.decoder h)).
Proof.
  intros Hcall.
  apply get_dataset_returns_inv in Hcall as (d & n & shards & _ & _ & _ & -> & _).
  cbn [handle_of Dataset.decoder].
  destruct schemas_declare_read_keys as [Hfull Htest].
  destruct schemas_read_declared_keys as [Hfull' Htest'].
  destruct (decide (split_name = "test")) as [->|Hne].
  - split; [|exact Htest'].
    intros item handler k Hitem Hk.
    exact (proj1 (Forall_forall _ _) (Htest item handler Hitem) k Hk).
  - rewrite (decoder_of_not_test _ Hne). split; [|exact Hfull'].
    intros item handler k Hitem Hk.
    exact (proj1 (Forall_forall _ _) (Hfull item handler Hitem) k Hk).
Qed.

Lemma get_dataset_schema_closed_witness :
  get_dataset {| Flags.if_depth := true |} "apolloscape" "train" "/data"
    module_globals
  = (Returned (handle_of module_globals {| Flags.if_depth := true |}
                 _APOLLOSCAPE_INFORMATION 4611 "apolloscape" "train" "/data"
                 "train-*"),
     module_globals)
  ∧ read_keys (decoder_of "train") = dom full_keys_to_features.
Proof.
  assert (Hcall :
    get_dataset {| Flags.if_depth := true |} "apolloscape" "train" "/data"
      module_globals
    = (Returned (handle_of module_globals {| Flags.if_depth := true |}
                   _APOLLOSCAPE_INFORMATION 4611 "apolloscape" "train" "/data"
                   "train-*"),
       module_globals)) by reflexivity.
  split; [exact Hcall|].
  exact (proj2 (get_dataset_schema_closed _ _ _ _ _ _ _ Hcall)).
Defined.

Lemma test_schema_included :
  map_Forall (λ k feature, full_keys_to_features !! k = Some feature)
    test_keys_to_features
  ∧ map_Forall (λ item handler, full_items_to_handlers !! item = Some handler)
      test_items_to_handlers.
Proof. split; by apply (bool_decide_unpack _); vm_compute. Qed.

(** X3: the schema of the "test" split is a restriction of the schema of the
    other splits: whatever the datasets, directories, configurations and
    module states of two calls that return, every feature and every item
    handler of the "test" decoder is in the decoder of a split other than
    "test", with the same value. *)
Theorem get_dataset_test_schema_included (g1 g1' g2 g2' : Globals.t)
    (FLAGS1 FLAGS2 : Flags.t)
    (dataset_name1 dataset_name2 split_name dataset_dir1 dataset_dir2 : string)
    (h1 h2 : Dataset.t) :
  get_dataset FLAGS1 dataset_name1 split_name dataset_dir1 g1 = (Returned h1, g1') →
  get_dataset FLAGS2 dataset_name2 "test" dataset_dir2 g2 = (Returned h2, g2') →
  split_name ≠ "test" →
  tfexample_decoder.keys_to_features (Dataset.decoder h2)
  ⊆ tfexample_decoder.keys_to_features (Dataset.decoder h1)
  ∧ tfexample_decoder.items_to_handlers (Dataset.decoder h2)
    ⊆ tfexample_decoder.items_to_handlers (Dataset.decoder h1).
Proof.
  intros Hcall1 Hcall2 Hne.
  apply get_dataset_returns_inv in Hcall1 as (d1 & n1 & s1 & _ & _ & _ & -> & _).
  apply get_dataset_returns_inv in Hcall2 as (d2 & n2 & s2 & _ & _ & _ & -> & _).
  cbn [handle_of Dataset.decoder]. rewrite (decoder_of_not_test _ Hne).
  destruct test_schema_included as [Hkeys Hitems].
  split; apply map_subseteq_spec; intros k v Hk.
  - exact (Hkeys k v Hk).
  - exact (Hitems k v Hk).
Qed.

Lemma get_dataset_test_schema_included_witness :
  get_dataset {| Flags.if_depth := true |} "apolloscape" "val" "/data"
    module_globals
  = (Returned (handle_of module_globals {| Flags.if_depth := true |}
                 _APOLLOSCAPE_INFORMATION 480 "apolloscape" "val" "/data" "val-*"),
     module_globals)
  ∧ get_dataset {| Flags.if_depth := false |} "apolloscape" "test" "/eval"
      module_globals
    = (Returned (handle_of module_globals {| Flags.if_depth := false |}
                   _APOLLOSCAPE_INFORMATION 1041 "apolloscape" "test" "/eval"
                   "test-*"),
       module_globals)
  ∧ "val" ≠ "test"
  ∧ test_keys_to_features ⊆ full_keys_to_features.
Proof.
  assert (Hcall1 :
    get_dataset {| Flags.if_depth := true |} "apolloscape" "val" "/data"
      module_globals
    = (Returned (handle_of module_globals {| Flags.if_depth := true |}
                   _APOLLOSCAPE_INFORMATION 480 "apolloscape" "val" "/data"
                   "val-*"),
       module_globals)) by reflexivity.
  assert (Hcall2 :
    get_dataset {| Flags.if_depth := false |} "apolloscape" "test" "/eval"
      module_globals
    = (Returned (handle_of module_globals {| Flags.if_depth := false |}
                   _APOLLOSCAPE_INFORMATION 1041 "apolloscape" "test" "/eval"
                   "test-*"),
       module_globals)) by reflexivity.
  assert (Hne : "val" ≠ "test") by discriminate.
  split; [exact Hcall1|]. split; [exact Hcall2|]. split; [exact Hne|].
  exact (proj1 (get_dataset_test_schema_included _ _ _ _ _ _ _ _ _ _ _ _ _
                  Hcall1 Hcall2 Hne)).
Defined.

(** X4: the decoder of a returned handle depends on nothing but whether the
    split is "test": two calls that return, on any datasets, directories,
    configurations and module states, build equal decoders when their
    splits are both "test" or both not "test". *)
Theorem get_dataset_decoder_by_split (g1 g1' g2 g2' : Globals.t)
    (FLAGS1 FLAGS2 : Flags.t)
    (dataset_name1 dataset_name2 split_name1 split_name2
       dataset_dir1 dataset_dir2 : string)
    (h1 h2 : Dataset.t) :
  get_dataset FLAGS1 dataset_name1 split_name1 dataset_dir1 g1 = (Returned h1, g1') →
  get_dataset FLAGS2 dataset_name2 split_name2 dataset_dir2 g2 = (Returned h2, g2') →
  (split_name1 = "test" ↔ split_name2 = "test") →
  Dataset.decoder h1 = Dataset.decoder h2.
Proof.
  intros Hcall1 Hcall2 Hiff.
  apply get_dataset_returns_inv in Hcall1 as (d1 & n1 & s1 & _ & _ & _ & -> & _).
  apply get_dataset_returns_inv in Hcall2 as (d2 & n2 & s2 & _ & _ & _ & -> & _).
  cbn [handle_of Dataset.decoder].
  destruct (decide (split_name1 = "test")) as [H1|H1].
  - by rewrite H1, (proj1 Hiff H1).
  - assert (H2 : split_name2 ≠ "test") by (intros H2; exact (H1 (proj2 Hiff H2))).
    by rewrite (decoder_of_not_test _ H1), (decoder_of_not_test _ H2).
Qed.

Lemma get_dataset_decoder_by_split_witness :
  get_dataset {| Flags.if_depth := true |} "apolloscape" "train" "/data"
    module_globals
  = (Returned (handle_of module_globals {| Flags.if_depth := true |}
                 _APOLLOSCAPE_INFORMATION 4611 "apolloscape" "train" "/data"
                 "train-*"),
     module_globals)
  ∧ get_dataset {| Flags.if_depth := false |} "apolloscape" "val" "/other"
      module_globals
    = (Returned (handle_of module_globals {| Flags.if_depth := false |}
                   _APOLLOSCAPE_INFORMATION 480 "apolloscape" "val" "/other"
                   "val-*"),
       module_globals)
  ∧ ("train" = "test" ↔ "val" = "test")
  ∧ decoder_of "train" = decoder_of "val".
Proof.
  assert (Hcall1 :
    get_dataset {| Flags.if_depth := true |} "apolloscape" "train" "/data"
      module_globals
    = (Returned (handle_of module_globals {| Flags.if_depth := true |}
                   _APOLLOSCAPE_INFORMATION 4611 "apolloscape" "train" "/data"
                   "train-*"),
       module_globals)) by reflexivity.
  assert (Hcall2 :
    get_dataset {| Flags.if_depth := false |} "apolloscape" "val" "/other"
      module_globals
    = (Returned (handle_of module_globals {| Flags.if_depth := false |}
                   _APOLLOSCAPE_INFORMATION 480 "apolloscape" "val" "/other"
                   "val-*"),
       module_globals)) by reflexivity.
  assert (Hiff : "train" = "test" ↔ "val" = "test")
    by (split; discriminate).
  split; [exact Hcall1|]. split; [exact Hcall2|]. split; [exact Hiff|].
  exact (get_dataset_decoder_by_split _ _ _ _ _ _ _ _ _ _ _ _ _ _
           Hcall1 Hcall2 Hiff).
Defined.

Lemma append_assoc (a b c : string) : (a +:+ b) +:+ c = a +:+ b +:+ c.
Proof.
  induction a as [|x a IH]; [reflexivity|].
  change (String x ((a +:+ b) +:+ c) = String x (a +:+ b +:+ c)).
  by rewrite IH.
Qed.

Lemma startswith_sep_shards (split_name : string) :
  startswith_sep (split_name +:+ "-*") = startswith_sep split_name.
Proof. by destruct split_name. Qed.

(** X5: whatever the registry holds, the file pattern of a returned handle
    ends with "<split_name>-*".  When the split name does not start with the
    path separator the pattern starts with the directory, followed by at
    most one separator; when it does, the directory is dropped and the
    pattern is "<split_name>-*" alone. *)
Theorem get_dataset_file_pattern_any_registry
    (registry : gmap string DatasetDescriptor.t) (FLAGS : Flags.t)
    (dataset_name split_name dataset_dir : string) (h : Dataset.t)
    (g' : Globals.t) :
  get_dataset FLAGS dataset_name split_name dataset_dir
    (with_registry module_globals registry)
  = (Returned h, g') →
  (∃ pre, Dataset.data_sources h = pre +:+ split_name +:+ "-*")
  ∧ (startswith_sep split_name = true →
     Dataset.data_sources h = split_name +:+ "-*")
  ∧ (startswith_sep split_name = false →
     ∃ sep, (sep = "" ∨ sep = "/")
            ∧ Dataset.data_sources h
              = dataset_dir +:+ sep +:+ split_name +:+ "-*").
Proof.
  intros Hcall.
  apply get_dataset_returns_inv in Hcall
    as (d & n & shards & _ & _ & Hf & -> & _).
  cbn [with_registry module_globals Globals._FILE_PATTERN] in Hf.
  rewrite percent_format_file_pattern in Hf. injection Hf as <-.
  cbn [handle_of Dataset.data_sources]. unfold os_path_join.
  rewrite startswith_sep_shards.
  destruct (startswith_sep split_name) eqn:Hsep.
  - split; [by exists ""|]. split; [done|]. intros Habs. discriminate Habs.
  - destruct (is_empty dataset_dir || endswith_sep dataset_dir).
    + split; [by exists dataset_dir|]. split; [intros Habs; discriminate Habs|].
      intros _. exists "". split; [by left|reflexivity].
    + split; [exists (dataset_dir +:+ "/"); by rewrite append_assoc|].
      split; [intros Habs; discriminate Habs|].
      intros _. exists "/". split; [by right|reflexivity].
Qed.

Lemma get_dataset_file_pattern_any_registry_witness :
  get_dataset {| Flags.if_depth := true |} "rooted" "/mnt/train" "/data"
    (with_registry module_globals (py_dict [("rooted", rooted_descriptor)]))
  = (Returned
       (handle_of
          (with_registry module_globals (py_dict [("rooted", rooted_descriptor)]))
          {| Flags.if_depth := true |} rooted_descriptor 7 "rooted"
          "/mnt/train" "/data" "/mnt/train-*"),
     with_registry module_globals (py_dict [("rooted", rooted_descriptor)]))
  ∧ startswith_sep "/mnt/train" = true
  ∧ Dataset.data_sources
      (handle_of
         (with_registry module_globals (py_dict [("rooted", rooted_descriptor)]))
         {| Flags.if_depth := true |} rooted_descriptor 7 "rooted"
         "/mnt/train" "/data" "/mnt/train-*")
    = "/mnt/train-*".
Proof.
  assert (Hcall :
    get_dataset {| Flags.if_depth := true |} "rooted" "/mnt/train" "/data"
      (with_registry module_globals (py_dict [("rooted", rooted_descriptor)]))
    = (Returned
         (handle_of
            (with_registry module_globals
               (py_dict [("rooted", rooted_descriptor)]))
            {| Flags.if_depth := true |} rooted_descriptor 7 "rooted"
            "/mnt/train" "/data" "/mnt/train-*"),
       with_registry module_globals (py_dict [("rooted", rooted_descriptor)])))
    by reflexivity.
  split; [exact Hcall|]. split; [reflexivity|].
  exact (proj1 (proj2 (get_dataset_file_pattern_any_registry _ _ _ _ _ _ _ Hcall))
           eq_refl).
Defined.

Lemma mapM_Returned {A B : Type} (f : A → Outcome B) (f' : A → B) (l : list A) :
  (∀ x, f x = Returned (f' x)) → mapM f l = Returned (f' <$> l).
Proof.
  intros Hf. induction l as [|x l IH]; [reflexivity|].
  cbn. rewrite Hf. cbn. by rewrite IH.
Qed.

Lemma append_empty_r (s : string) : s +:+ "" = s.
Proof.
  induction s as [|x s IH]; [reflexivity|].
  change (String x (s +:+ "") = String x s). by rewrite IH.
Qed.

Lemma percent_format_shape_name (dim : Z) :
  percent_format "shape_%d" [PyInt dim] = Returned ("shape_" +:+ pretty dim).
Proof.
  change (Returned ("shape_" +:+ pretty dim +:+ "")
          = Returned ("shape_" +:+ pretty dim)).
  by rewrite append_empty_r.
Qed.

Lemma shape_name_inj (x y : Z) :
  "shape_" +:+ pretty x = "shape_" +:+ pretty y → x = y.
Proof. intros [= Heq]. by apply (inj pretty). Qed.

(** X6: the comprehension [['shape_%d' % dim for dim in range(dims)]] never
    raises, whatever [dims] is; it yields [dims] names (none when [dims] is
    not positive), "shape_0", "shape_1" and so on, which are pairwise
    distinct and distinct from the eight pose-channel names they are
    appended to. *)
Theorem shape_names_spec (dims : Z) :
  shape_names dims = Returned ((λ dim, "shape_" +:+ pretty dim) <$> range dims)
  ∧ length ((λ dim, "shape_" +:+ pretty dim) <$> range dims) = Z.to_nat dims
  ∧ NoDup (["q1"; "q2"; "q3"; "q4"; "x"; "y"; "z_log_dense"; "z_log_offset"]
             ++ ((λ dim, "shape_" +:+ pretty dim) <$> range dims)).
Proof.
  split; [|split].
  - unfold shape_names. apply mapM_Returned. exact percent_format_shape_name.
  - unfold range. by rewrite length_fmap, length_seqZ.
  - apply NoDup_app. split; [|split].
    + by apply (bool_decide_unpack _); vm_compute.
    + intros name Hname Hshape.
      apply list_elem_of_fmap in Hshape as (dim & -> & _).
      repeat (apply elem_of_cons in Hname as [Hname|Hname];
              [discriminate Hname|]).
      by apply elem_of_nil in Hname.
    + apply NoDup_fmap_2_strong; [|apply NoDup_seqZ].
      intros x y _ _. apply shape_name_inj.
Qed.

(** X7: whatever the registry holds, the resolver raises nothing but its
    two errors: an exception is the unsupported-dataset error, and then the
    dataset name is not registered, or the unrecognized-split error for the
    split name, and then the dataset is registered without that split.  The
    two subscripts [_DATASETS_INFORMATION[dataset_name]] and
    [splits_to_sizes[split_name]] never raise [KeyError]. *)
Theorem get_dataset_raises_only (registry : gmap string DatasetDescriptor.t)
    (FLAGS : Flags.t) (dataset_name split_name dataset_dir : string) (e : exn) :
  (get_dataset FLAGS dataset_name split_name dataset_dir
     (with_registry module_globals registry)).1 = Raised e →
  ((e = unsupported_dataset_error ∧ registry !! dataset_name = None)
   ∨ (e = unrecognized_split_error split_name
      ∧ ∃ d, registry !! dataset_name = Some d
             ∧ DatasetDescriptor.splits_to_sizes d !! split_name = None))
  ∧ ∀ k, e ≠ KeyError k.
Proof.
  rewrite get_dataset_cases.
  cbn [with_registry module_globals Globals._DATASETS_INFORMATION
       Globals._FILE_PATTERN].
  rewrite percent_format_file_pattern.
  destruct (registry !! dataset_name) as [d|] eqn:Hd.
  - destruct (DatasetDescriptor.splits_to_sizes d !! split_name) as [n|] eqn:Hn;
      cbn [fst]; intros [= <-].
    split; [|intros k Hk; discriminate Hk]. right. split; [reflexivity|].
    by exists d.
  - cbn [fst]. intros [= <-].
    split; [|intros k Hk; discriminate Hk]. by left.
Qed.

Lemma get_dataset_raises_only_witness :
  (get_dataset {| Flags.if_depth := true |} "other" "val" "/data"
     (with_registry module_globals (py_dict [("other", other_descriptor)]))).1
  = Raised (unrecognized_split_error "val")
  ∧ ∀ k, unrecognized_split_error "val" ≠ KeyError k.
Proof.
  assert (Hcall :
    (get_dataset {| Flags.if_depth := true |} "other" "val" "/data"
       (with_registry module_globals (py_dict [("other", other_descriptor)]))).1
    = Raised (unrecognized_split_error "val")) by reflexivity.
  split; [exact Hcall|].
  exact (proj2 (get_dataset_raises_only _ _ _ _ _ _ Hcall)).
Defined.

(** X8: a descriptor registered under a name is the one the resolver finds
    under that name, whatever the registry held before: resolving one of its
    splits returns a handle with the size of that split and the fields of
    that descriptor, and leaves the module state as it was. *)
Theorem get_dataset_registered (registry : gmap string DatasetDescriptor.t)
    (dataset_name : string) (d : DatasetDescriptor.t) (FLAGS : Flags.t)
    (split_name dataset_dir : string) (n : Z) :
  DatasetDescriptor.splits_to_sizes d !! split_name = Some n →
  ∃ h, get_dataset FLAGS dataset_name split_name dataset_dir
         (with_registry module_globals (<[dataset_name := d]> registry))
       = (Returned h,
          with_registry module_globals (<[dataset_name := d]> registry))
       ∧ Dataset.num_samples h = n
       ∧ Dataset.num_classes h = DatasetDescriptor.num_classes d
       ∧ Dataset.SHAPE_DIMS h = DatasetDescriptor.shape_dims d
       ∧ Dataset.SHAPE_BINS h = DatasetDescriptor.shape_bins d
       ∧ Dataset.pose_range h = DatasetDescriptor.pose_range d
       ∧ Dataset.bin_nums h = DatasetDescriptor.bin_nums d
       ∧ Dataset.output_names h = DatasetDescriptor.output_names d.
Proof.
  intros Hn. eexists. split.
  - rewrite get_dataset_cases.
    cbn [with_registry module_globals Globals._DATASETS_INFORMATION
         Globals._FILE_PATTERN].
    rewrite lookup_insert_eq, Hn, percent_format_file_pattern. reflexivity.
  - repeat split.
Qed.

Lemma get_dataset_registered_witness :
  DatasetDescriptor.splits_to_sizes other_descriptor !! "train" = Some 1
  ∧ ∃ h, get_dataset {| Flags.if_depth := false |} "apolloscape" "train" "/data"
           (with_registry module_globals
              (<["apolloscape" := other_descriptor]> _DATASETS_INFORMATION))
         = (Returned h,
            with_registry module_globals
              (<["apolloscape" := other_descriptor]> _DATASETS_INFORMATION))
         ∧ Dataset.num_samples h = 1.
Proof.
  assert (Hn : DatasetDescriptor.splits_to_sizes other_descriptor !! "train"
               = Some 1) by reflexivity.
  split; [exact Hn|].
  destruct (get_dataset_registered _DATASETS_INFORMATION "apolloscape"
              other_descriptor {| Flags.if_depth := false |} "train" "/data" 1 Hn)
    as (h & Hcall & Hsamples & _).
  exists h. split; [exact Hcall|exact Hsamples].
Defined.

(** X9: registering a descriptor under one name does not change what the
    resolver does for any other name: same handle or same exception. *)
Theorem get_dataset_registry_frame (registry : gmap string DatasetDescriptor.t)
    (name : string) (d : DatasetDescriptor.t) (FLAGS : Flags.t)
    (dataset_name split_name dataset_dir : string) :
  dataset_name ≠ name →
  (get_dataset FLAGS dataset_name split_name dataset_dir
     (with_registry module_globals (<[name := d]> registry))).1
  = (get_dataset FLAGS dataset_name split_name dataset_dir
       (with_registry module_globals registry)).1.
Proof.
  intros Hne. rewrite !get_dataset_cases.
  cbn [with_registry module_globals Globals._DATASETS_INFORMATION
       Globals._FILE_PATTERN].
  rewrite lookup_insert_ne by done.
  destruct (registry !! dataset_name) as [d'|]; [|reflexivity].
  destruct (DatasetDescriptor.splits_to_sizes d' !! split_name) as [n|];
    [|reflexivity].
  destruct (percent_format _ _); reflexivity.
Qed.

Lemma get_dataset_registry_frame_witness :
  "apolloscape" ≠ "other"
  ∧ (get_dataset {| Flags.if_depth := true |} "apolloscape" "test" "/data"
       (with_registry module_globals
          (<["other" := other_descriptor]> _DATASETS_INFORMATION))).1
    = (get_dataset {| Flags.if_depth := true |} "apolloscape" "test" "/data"
         (with_registry module_globals _DATASETS_INFORMATION)).1.
Proof.
  assert (Hne : "apolloscape" ≠ "other") by discriminate.
  split; [exact Hne|].
  exact (get_dataset_registry_frame _DATASETS_INFORMATION "other"
           other_descriptor {| Flags.if_depth := true |} "apolloscape" "test"
           "/data" Hne).
Defined.

Lemma apolloscape_channels :
  NoDup (DatasetDescriptor.output_names _APOLLOSCAPE_INFORMATION)
  ∧ NoDup (DatasetDescriptor.output_names_summary _APOLLOSCAPE_INFORMATION)
  ∧ length (DatasetDescriptor.output_names _APOLLOSCAPE_INFORMATION)
    = length (DatasetDescriptor.bin_nums _APOLLOSCAPE_INFORMATION)
  ∧ Forall (λ b, 1 ≤ b) (DatasetDescriptor.bin_nums _APOLLOSCAPE_INFORMATION).
Proof.
  split; [|split; [|split]]; [| |reflexivity|];
    by apply (bool_decide_unpack _); vm_compute.
Qed.

(** X10: on the module as imported, the output channels of a returned
    handle are well formed: the names in [output_names] are pairwise
    distinct, as are those in [output_names_summary]; [bin_nums] has one
    entry per name of [output_names]; and every bin count is at least 1. *)
Theorem get_dataset_output_channels (FLAGS : Flags.t)
    (dataset_name split_name dataset_dir : string) (h : Dataset.t)
    (g' : Globals.t) :
  get_dataset FLAGS dataset_name split_name dataset_dir module_globals
  = (Returned h, g') →
  NoDup (Dataset.output_names h)
  ∧ NoDup (Dataset.output_names_summary h)
  ∧ length (Dataset.output_names h) = length (Dataset.bin_nums h)
  ∧ Forall (λ b, 1 ≤ b) (Dataset.bin_nums h).
Proof.
  intros Hcall.
  apply get_dataset_module_inv in Hcall as (_ & _ & n & _ & ->).
  cbn [handle_of Dataset.output_names Dataset.output_names_summary
       Dataset.bin_nums].
  exact apolloscape_channels.
Qed.

Lemma get_dataset_output_channels_witness :
  get_dataset {| Flags.if_depth := true |} "apolloscape" "train" "/data"
    module_globals
  = (Returned (handle_of module_globals {| Flags.if_depth := true |}
                 _APOLLOSCAPE_INFORMATION 4611 "apolloscape" "train" "/data"
                 "train-*"),
     module_globals)
  ∧ NoDup (DatasetDescriptor.output_names _APOLLOSCAPE_INFORMATION).
Proof.
  assert (Hcall :
    get_dataset {| Flags.if_depth := true |} "apolloscape" "train" "/data"
      module_globals
    = (Returned (handle_of module_globals {| Flags.if_depth := true |}
                   _APOLLOSCAPE_INFORMATION 4611 "apolloscape" "train" "/data"
                   "train-*"),
       module_globals)) by reflexivity.
  split; [exact Hcall|].
  exact (proj1 (get_dataset_output_channels _ _ _ _ _ _ Hcall)).
Defined.

(** ** The effects of the resolver *)

Lemma bindT_ret {E A B : Type} (a : A) (f : A → PyT E B) (w : World E) :
  (mret a ≫= f) w = f a w.
Proof. reflexivity. Qed.

Lemma bindT_assoc {E A B C : Type} (m : PyT E A) (k : A → PyT E B)
    (f : B → PyT E C) (w : World E) :
  ((m ≫= k) ≫= f) w = (m ≫= (λ a, k a ≫= f)) w.
Proof. unfold mbind, PyT_bind. by destruct (m w) as [[a|e] w']. Qed.

Lemma bindT_global {E A B : Type} (name : Globals.t → A) (f : A → PyT E B)
    (w : World E) :
  (globalT name ≫= f) w = f (name (w_globals w)) w.
Proof. reflexivity. Qed.

Lemma bindT_eval {E A B : Type} (r : Outcome A) (f : A → PyT E B)
    (w : World E) :
  (evalT r ≫= f) w
  = match r with Returned a => f a w | Raised e => (Raised e, w) end.
Proof. by destruct r. Qed.

Lemma bindT_call {E A B : Type} (library : Effect → E → E) (callee : string)
    (v : A) (f : A → PyT E B) (w : World E) :
  (call library callee v ≫= f) w = f v (perform library (Call callee) w).
Proof. reflexivity. Qed.

Lemma bindT_getattr {E A B : Type} (library : Effect → E → E)
    (object attribute : string) (v : A) (f : A → PyT E B) (w : World E) :
  (getattr library object attribute v ≫= f) w
  = f v (perform library (GetAttr object attribute) w).
Proof. reflexivity. Qed.

Lemma bindT_dict_display {E V B : Type} (library : Effect → E → E)
    (callee : V → string) (items : list (string * V))
    (f : gmap string V → PyT E B) (w : World E) :
  (dict_display library callee items ≫= f) w
  = f (py_dict items)
      (performs library w ((λ item, Call (callee item.2)) <$> items)).
Proof. reflexivity. Qed.

Lemma bindT_descriptor_field {E A B : Type} (dataset_name : string)
    (field : DatasetDescriptor.t → A) (f : A → PyT E B) (w : World E)
    (d : DatasetDescriptor.t) :
  Globals._DATASETS_INFORMATION (w_globals w) !! dataset_name = Some d →
  (descriptor_fieldT dataset_name field ≫= f) w = f (field d) w.
Proof.
  intros Hd.
  unfold descriptor_fieldT, mbind, PyT_bind, globalT, evalT, dict_getitem.
  by rewrite Hd.
Qed.

Lemma w_globals_perform {E : Type} (library : Effect → E → E) (a : Effect)
    (w : World E) :
  w_globals (perform library a w) = w_globals w.
Proof. reflexivity. Qed.

Lemma performs_cons {E : Type} (library : Effect → E → E) (w : World E)
    (a : Effect) (l : list Effect) :
  performs library w (a :: l) = performs library (perform library a w) l.
Proof. reflexivity. Qed.

Lemma performs_app {E : Type} (library : Effect → E → E) (w : World E)
    (l k : list Effect) :
  performs library w (l ++ k) = performs library (performs library w l) k.
Proof. apply foldl_app. Qed.

Lemma w_globals_performs {E : Type} (library : Effect → E → E)
    (effects : list Effect) (w : World E) :
  w_globals (performs library w effects) = w_globals w.
Proof.
  revert w. induction effects as [|a effects IH]; intros w; [reflexivity|].
  by rewrite performs_cons, (IH (perform library a w)).
Qed.

Lemma w_effects_performs {E : Type} (library : Effect → E → E)
    (effects : list Effect) (w : World E) :
  w_effects (performs library w effects) = (w_effects w ++ effects)%list.
Proof.
  revert w. induction effects as [|a effects IH]; intros w.
  - change (performs library w []) with w. by rewrite app_nil_r.
  - rewrite performs_cons, (IH (perform library a w)).
    cbn [perform w_effects]. by rewrite <- app_assoc.
Qed.

Lemma w_external_performs {E : Type} (library : Effect → E → E)
    (effects : list Effect) (w : World E) :
  w_external (performs library w effects)
  = foldl (λ e a, library a e) (w_external w) effects.
Proof.
  revert w. induction effects as [|a effects IH]; intros w; [reflexivity|].
  by rewrite performs_cons, (IH (perform library a w)).
Qed.

Lemma w_external_performs_inert {E : Type} (library : Effect → E → E)
    (effects : list Effect) (w : World E) :
  (∀ a e, a ∈ effects → library a e = e) →
  w_external (performs library w effects) = w_external w.
Proof.
  rewrite w_external_performs. generalize (w_external w).
  induction effects as [|a effects IH]; intros e Hinert; [reflexivity|].
  cbn [foldl]. rewrite (Hinert a e) by apply list_elem_of_here.
  apply IH. intros a' e' Ha'. apply Hinert. by apply list_elem_of_further.
Qed.

(** The whole behaviour of the recorded resolver, by cases on the two
    lookups: the outcomes of [get_dataset_cases], and the world after. *)
Lemma get_dataset_traced_cases {E : Type} (library : Effect → E → E)
    (w : World E) (FLAGS : Flags.t)
    (dataset_name split_name dataset_dir : string) :
  get_dataset_traced library FLAGS dataset_name split_name dataset_dir w =
  match Globals._DATASETS_INFORMATION (w_globals w) !! dataset_name with
  | None => (Raised unsupported_dataset_error, w)
  | Some d =>
      match DatasetDescriptor.splits_to_sizes d !! split_name with
      | None => (Raised (unrecognized_split_error split_name), w)
      | Some n =>
          match percent_format (Globals._FILE_PATTERN (w_globals w))
                  [PyStr split_name] with
          | Returned shards =>
              (Returned (handle_of (w_globals w) FLAGS d n dataset_name
                           split_name dataset_dir shards),
               performs library w (returning_effects split_name))
          | Raised e => (Raised e, w)
          end
      end
  end.
Proof.
  unfold get_dataset_traced. rewrite bindT_global. unfold dict_contains at 1.
  destruct (Globals._DATASETS_INFORMATION (w_globals w) !! dataset_name)
    as [d|] eqn:Hd; [|done].
  cbn [negb]. rewrite (bindT_descriptor_field _ _ _ _ _ Hd).
  unfold dict_contains.
  destruct (DatasetDescriptor.splits_to_sizes d !! split_name) as [n|] eqn:Hn;
    cbn [negb].
  - repeat (rewrite (bindT_descriptor_field _ _ _ _ _ Hd); cbv beta).
    rewrite bindT_global, bindT_eval.
    destruct (percent_format _ _) as [shards|e]; [|done].
    rewrite bindT_call.
    unfold returning_effects, schema_effects, handle_of, decoder_of.
    destruct (String.eqb split_name "test"); cbn [negb].
    all: rewrite !bindT_assoc, bindT_dict_display; cbv beta.
    all: rewrite !bindT_assoc, bindT_dict_display; cbv beta.
    all: rewrite bindT_ret, bindT_call, bindT_eval.
    all: unfold dict_getitem; rewrite Hn.
    all: rewrite !bindT_global, bindT_getattr.
    all: rewrite !w_globals_perform, !w_globals_performs, !w_globals_perform.
    all: by rewrite !performs_app.
  - by rewrite bindT_eval, percent_format_split_message.
Qed.

(** The recorded run has the outcome of the resolver, and its world after is
    the world before on which the footprint has been performed. *)
Lemma get_dataset_traced_run {E : Type} (library : Effect → E → E)
    (w : World E) (FLAGS : Flags.t)
    (dataset_name split_name dataset_dir : string) :
  get_dataset_traced library FLAGS dataset_name split_name dataset_dir w
  = ((get_dataset FLAGS dataset_name split_name dataset_dir (w_globals w)).1,
     performs library w (footprint (w_globals w) dataset_name split_name)).
Proof.
  rewrite get_dataset_traced_cases, get_dataset_cases. unfold footprint.
  destruct (Globals._DATASETS_INFORMATION (w_globals w) !! dataset_name)
    as [d|]; [|reflexivity].
  destruct (DatasetDescriptor.splits_to_sizes d !! split_name) as [n|];
    [|reflexivity].
  destruct (percent_format _ _); reflexivity.
Qed.

Lemma returning_effects_builders (split_name : string) :
  Forall (λ a, a ∈ value_builders) (returning_effects split_name).
Proof.
  unfold returning_effects, schema_effects.
  destruct (String.eqb split_name "test"); cbn [negb];
    by apply (bool_decide_unpack _); vm_compute.
Qed.

Lemma footprint_builders (g : Globals.t) (dataset_name split_name : string) :
  Forall (λ a, a ∈ value_builders) (footprint g dataset_name split_name).
Proof.
  unfold footprint.
  destruct (Globals._DATASETS_INFORMATION g !! dataset_name) as [d|];
    [|apply Forall_nil_2].
  destruct (DatasetDescriptor.splits_to_sizes d !! split_name) as [n|];
    [|apply Forall_nil_2].
  destruct (percent_format _ _);
    [apply returning_effects_builders|apply Forall_nil_2].
Qed.

Lemma footprint_raised (g : Globals.t) (FLAGS : Flags.t)
    (dataset_name split_name dataset_dir : string) (e : exn) :
  (get_dataset FLAGS dataset_name split_name dataset_dir g).1 = Raised e →
  footprint g dataset_name split_name = [].
Proof.
  rewrite get_dataset_cases. unfold footprint.
  destruct (Globals._DATASETS_INFORMATION g !! dataset_name) as [d|];
    [|reflexivity].
  destruct (DatasetDescriptor.splits_to_sizes d !! split_name) as [n|];
    [|reflexivity].
  destruct (percent_format _ _); [|reflexivity].
  cbn [fst]. intros Habs. discriminate Habs.
Qed.

(** The reader class is handed over, never called; nothing is opened. *)
Lemma value_builders_exclude :
  (Call "tf.TFRecordReader" ∉ value_builders)
  ∧ (Call "open" ∉ value_builders)
  ∧ (Call "tf.gfile.Glob" ∉ value_builders).
Proof. repeat split; by apply (bool_decide_unpack _); vm_compute. Qed.



(** The record is not empty by construction: a call on "train" makes 33
    library interactions, a call on "test" 16, and a call that raises none. *)
Lemma get_dataset_traced_counts :
  w_external
    (get_dataset_traced counting_all {| Flags.if_depth := true |}
       "apolloscape" "train" "/data"
       {| w_globals := module_globals; w_external := 0%nat; w_effects := [] |}).2
  = 33%nat
  ∧ w_external
      (get_dataset_traced counting_all {| Flags.if_depth := true |}
         "apolloscape" "test" "/data"
         {| w_globals := module_globals; w_external := 0%nat;
            w_effects := [] |}).2
    = 16%nat
  ∧ w_external
      (get_dataset_traced counting_all {| Flags.if_depth := true |}
         "apolloscape" "trainval" "/data"
         {| w_globals := module_globals; w_external := 0%nat;
            w_effects := [] |}).2
    = 0%nat.
Proof. repeat split; reflexivity. Qed.
